(** * SMASH density.cc: density-type selector, smearing kernel,
      Eckart current and lattice update

    A shallow embedding of [src/density.cc] of SMASH.  The C++ [double] is
    idealised as a real number of the Standard Library ([R]): [std::exp],
    [std::sqrt] and [std::fabs] become [exp], [sqrt] and [Rabs], and the
    comparisons of the code are decided with [Rlt_dec] and [Rgt_dec].
    Rounding, infinities and NaN are outside this model. *)

From Stdlib Require Import Reals Lra Lia ZArith List Bool String.
From Stdlib Require Import Permutation.
Import ListNotations.
Open Scope R_scope.

(** ** Vectors *)

(** Modelled from the spec: [threevector.h] is not among the sources.  A
    three-vector is three doubles, default-constructed to zero, with the
    usual component-wise arithmetic; [operator*] between two three-vectors
    is the scalar product. *)
Module ThreeVector.
Record t : Type := mk { x1 : R; x2 : R; x3 : R }.

Definition zero : t := mk 0 0 0.
Definition add (a b : t) : t := mk (x1 a + x1 b) (x2 a + x2 b) (x3 a + x3 b).
Definition sub (a b : t) : t := mk (x1 a - x1 b) (x2 a - x2 b) (x3 a - x3 b).
(** [a * k], vector times double. *)
Definition scale (a : t) (k : R) : t := mk (x1 a * k) (x2 a * k) (x3 a * k).
(** [k * a], double times vector. *)
Definition lscale (k : R) (a : t) : t := mk (k * x1 a) (k * x2 a) (k * x3 a).
(** [a * b], the scalar product. *)
Definition dot (a b : t) : R := x1 a * x1 b + x2 a * x2 b + x3 a * x3 b.
Definition sqr (a : t) : R := dot a a.
(** [a[i]] for [i] in 0..2; other indices are not used by the code. *)
Definition get (a : t) (i : nat) : R :=
  match i with
  | O => x1 a
  | S O => x2 a
  | S (S O) => x3 a
  | _ => 0
  end.
End ThreeVector.

(** Modelled from the spec: [fourvector.h] is not among the sources.  A
    four-vector is four doubles, default-constructed to zero; [sqr] is the
    Minkowski square with signature (+,-,-,-) and [abs] the invariant norm,
    its square root.  [sqrt] of the Standard Library is 0 on negative
    arguments. *)
Module FourVector.
Record t : Type := mk { x0 : R; x1 : R; x2 : R; x3 : R }.

Definition zero : t := mk 0 0 0 0.
Definition add (a b : t) : t :=
  mk (x0 a + x0 b) (x1 a + x1 b) (x2 a + x2 b) (x3 a + x3 b).
Definition sub (a b : t) : t :=
  mk (x0 a - x0 b) (x1 a - x1 b) (x2 a - x2 b) (x3 a - x3 b).
(** [a * k], four-vector times double. *)
Definition scale (a : t) (k : R) : t :=
  mk (x0 a * k) (x1 a * k) (x2 a * k) (x3 a * k).
(** [a / k], four-vector divided by a double. *)
Definition div (a : t) (k : R) : t :=
  mk (x0 a / k) (x1 a / k) (x2 a / k) (x3 a / k).
Definition threevec (a : t) : ThreeVector.t := ThreeVector.mk (x1 a) (x2 a) (x3 a).
Definition sqr (a : t) : R :=
  x0 a * x0 a - (x1 a * x1 a + x2 a * x2 a + x3 a * x3 a).
Definition abs (a : t) : R := sqrt (sqr a).
End FourVector.

(** ** Particles *)

(** Modelled from the spec: [particletype.h] and [pdgcode.h] are not among
    the sources.  A species is the record of what [density_factor] reads
    from it. *)
Record ParticleType : Type := {
  is_hadron : bool;
  is_baryon : bool;
  is_nucleus : bool;
  pdgcode_is_pion : bool;
  baryon_number : Z;
  charge : Z;
  strangeness : Z;
  isospin3 : R;
  isospin3_rel : R
}.

(** Modelled from the spec: [particledata.h] is not among the sources. *)
Record ParticleData : Type := {
  type : ParticleType;
  momentum : FourVector.t;
  position : FourVector.t
}.

(** Modelled from the spec: the enumeration is declared in [density.h],
    which is not among the sources; its values are those the spec lists. *)
Module DensityType.
Inductive t : Type :=
| Hadron
| Baryon
| BaryonicIsospin
| Pion
| Isospin3_tot
| Charge
| Strangeness
| None.
End DensityType.

(** ** Density parameters *)

(** Modelled from the spec: the derivative mode is either analytic, through
    the gradient of the kernel, or by finite differences in time. *)
Inductive DerivativesMode : Type :=
| CovariantGaussian
| FiniteDifference.

(** Modelled from the spec: [DensityParameters] is declared in [density.h].
    It holds the Gaussian width and the cutoff radius, from which the
    squared cutoff and [1/(2 sigma^2)] are precomputed, the normalisation
    factor and the derivative mode. *)
Record DensityParameters : Type := {
  sig : R;
  r_cut : R;
  norm_factor_sf : R;
  derivatives : DerivativesMode
}.

Definition r_cut_sqr (par : DensityParameters) : R := r_cut par * r_cut par.
Definition two_sig_sqr_inv (par : DensityParameters) : R :=
  1 / (2 * sig par * sig par).

(** The invariant of the spec: width and cutoff radius are positive. *)
Definition valid_parameters (par : DensityParameters) : Prop :=
  0 < sig par /\ 0 < r_cut par.

(** ** density_factor *)

Definition density_factor (type : ParticleType) (dens_type : DensityType.t) : R :=
  match dens_type with
  | DensityType.Hadron => if is_hadron type then 1 else 0
  | DensityType.Baryon => IZR (baryon_number type)
  | DensityType.BaryonicIsospin =>
      if is_baryon type || is_nucleus type then isospin3_rel type else 0
  | DensityType.Pion => if pdgcode_is_pion type then 1 else 0
  | DensityType.Isospin3_tot => if is_hadron type then isospin3 type else 0
  | DensityType.Charge => IZR (charge type)
  | DensityType.Strangeness => IZR (strangeness type)
  | _ => 0
  end.

(** ** unnormalized_smearing_factor *)

Definition unnormalized_smearing_factor
    (r : ThreeVector.t) (p : FourVector.t) (m_inv : R)
    (dens_par : DensityParameters) (compute_gradient : bool)
    : R * ThreeVector.t :=
  let r_sqr := ThreeVector.sqr r in
  if Rgt_dec r_sqr (r_cut_sqr dens_par) then (0, ThreeVector.zero)
  else
    let u := FourVector.scale p m_inv in
    let u_r_scalar := ThreeVector.dot r (FourVector.threevec u) in
    let r_rest_sqr := r_sqr + u_r_scalar * u_r_scalar in
    if Rgt_dec r_rest_sqr (r_cut_sqr dens_par) then (0, ThreeVector.zero)
    else
      let sf := exp (- r_rest_sqr * two_sig_sqr_inv dens_par) * FourVector.x0 u in
      let sf_grad :=
        if compute_gradient
        then ThreeVector.scale
               (ThreeVector.scale
                  (ThreeVector.lscale sf
                     (ThreeVector.add r
                        (ThreeVector.scale (FourVector.threevec u) u_r_scalar)))
                  (two_sig_sqr_inv dens_par))
               2
        else ThreeVector.zero in
      (sf, sf_grad).

(** ** current_eckart *)

(** A [std::array] indexed by position: [array_update f k a] replaces the
    element at index [k] by its image under [f].  An index out of range,
    undefined in C++, leaves the array as it is. *)
Fixpoint array_update {A : Type} (f : A -> A) (k : nat) (a : list A) : list A :=
  match a, k with
  | [], _ => []
  | x :: a', O => f x :: a'
  | x :: a', S k' => x :: array_update f k' a'
  end.

(** The local variables of [current_eckart_impl] that the loop over the
    particles updates. *)
Record Accumulator : Type := {
  jmu_pos : FourVector.t;
  jmu_neg : FourVector.t;
  djmu_dx : list FourVector.t
}.

(** [jmu_pos += v], [jmu_neg += v] and the assignment of the array. *)
Definition add_jmu_pos (acc : Accumulator) (v : FourVector.t) : Accumulator :=
  {| jmu_pos := FourVector.add (jmu_pos acc) v;
     jmu_neg := jmu_neg acc;
     djmu_dx := djmu_dx acc |}.
Definition add_jmu_neg (acc : Accumulator) (v : FourVector.t) : Accumulator :=
  {| jmu_pos := jmu_pos acc;
     jmu_neg := FourVector.add (jmu_neg acc) v;
     djmu_dx := djmu_dx acc |}.
Definition set_djmu_dx (acc : Accumulator) (d : list FourVector.t) : Accumulator :=
  {| jmu_pos := jmu_pos acc; jmu_neg := jmu_neg acc; djmu_dx := d |}.

(** [FourVector jmu_pos, jmu_neg; std::array<FourVector, 4> djmu_dx;] *)
Definition initial_accumulator : Accumulator :=
  {| jmu_pos := FourVector.zero;
     jmu_neg := FourVector.zero;
     djmu_dx := [FourVector.zero; FourVector.zero; FourVector.zero; FourVector.zero] |}.

(** The result tuple: Eckart density, four-current, gradient of the
    density, time derivative of the current, curl of the current. *)
Definition EckartResult : Type :=
  (R * FourVector.t * ThreeVector.t * ThreeVector.t * ThreeVector.t)%type.

Definition rho_eck_of (res : EckartResult) : R :=
  match res with (rho, _, _, _, _) => rho end.
Definition jmu_of (res : EckartResult) : FourVector.t :=
  match res with (_, j, _, _, _) => j end.
Definition rho_grad_of (res : EckartResult) : ThreeVector.t :=
  match res with (_, _, g, _, _) => g end.
Definition dj_dt_of (res : EckartResult) : ThreeVector.t :=
  match res with (_, _, _, d, _) => d end.
Definition j_rot_of (res : EckartResult) : ThreeVector.t :=
  match res with (_, _, _, _, c) => c end.

(** One pass of the inner loop [for (int k = 1; k <= 3; k++)]. *)
Definition gradient_step (tmp : FourVector.t) (grad : ThreeVector.t)
    (dens_factor : R) (djmu : list FourVector.t) (k : nat) : list FourVector.t :=
  let djmu1 :=
    array_update
      (fun v => FourVector.add v (FourVector.scale tmp (ThreeVector.get grad (k - 1))))
      k djmu in
  array_update
    (fun v =>
       FourVector.sub v
         (FourVector.div
            (FourVector.scale
               (FourVector.scale tmp (ThreeVector.get grad (k - 1)))
               (ThreeVector.get (FourVector.threevec tmp) (k - 1)))
            dens_factor))
    O djmu1.

(** What is computed after the loop, from the accumulated sums. *)
Definition eckart_reduce (par : DensityParameters) (compute_gradient : bool)
    (acc : Accumulator) : EckartResult :=
  let d := fun i => nth i (djmu_dx acc) FourVector.zero in
  let rho_eck :=
    (FourVector.abs (jmu_pos acc) - FourVector.abs (jmu_neg acc))
    * norm_factor_sf par in
  let dj_dt :=
    if compute_gradient
    then ThreeVector.scale (FourVector.threevec (d 0%nat)) (norm_factor_sf par)
    else ThreeVector.zero in
  let rho_grad :=
    if compute_gradient
    then ThreeVector.mk
           (0 + FourVector.x0 (d 1%nat) * norm_factor_sf par)
           (0 + FourVector.x0 (d 2%nat) * norm_factor_sf par)
           (0 + FourVector.x0 (d 3%nat) * norm_factor_sf par)
    else ThreeVector.zero in
  let j_rot :=
    if compute_gradient
    then ThreeVector.scale
           (ThreeVector.mk
              (FourVector.x3 (d 2%nat) - FourVector.x2 (d 3%nat))
              (FourVector.x1 (d 3%nat) - FourVector.x3 (d 1%nat))
              (FourVector.x2 (d 1%nat) - FourVector.x1 (d 2%nat)))
           (norm_factor_sf par)
    else ThreeVector.zero in
  (rho_eck,
   FourVector.scale (FourVector.add (jmu_pos acc) (jmu_neg acc)) (norm_factor_sf par),
   rho_grad, dj_dt, j_rot).

Section CurrentEckart.

(** The epsilon of [constants.h], which is not among the sources. *)
Variable really_small : R.

Variable r : ThreeVector.t.
Variable par : DensityParameters.
Variable dens_type : DensityType.t.
Variables compute_gradient smearing : bool.

(** The body of [for (const auto &p : plist)]. *)
Definition eckart_body (acc : Accumulator) (p : ParticleData) : Accumulator :=
  let dens_factor := density_factor (type p) dens_type in
  if Rlt_dec (Rabs dens_factor) really_small then acc
  else
    let mom := momentum p in
    let m := FourVector.abs mom in
    if Rlt_dec m really_small then acc
    else
      let m_inv := 1 / m in
      let sf_and_grad :=
        unnormalized_smearing_factor
          (ThreeVector.sub (FourVector.threevec (position p)) r)
          mom m_inv par compute_gradient in
      let tmp := FourVector.scale mom (dens_factor / FourVector.x0 mom) in
      let acc1 :=
        if smearing then
          if Rgt_dec dens_factor 0
          then add_jmu_pos acc (FourVector.scale tmp (fst sf_and_grad))
          else add_jmu_neg acc (FourVector.scale tmp (fst sf_and_grad))
        else
          if Rgt_dec dens_factor 0
          then add_jmu_pos acc tmp
          else add_jmu_neg acc tmp in
      if compute_gradient
      then set_djmu_dx acc1
             (fold_left (gradient_step tmp (snd sf_and_grad) dens_factor)
                [1%nat; 2%nat; 3%nat] (djmu_dx acc1))
      else acc1.

Definition eckart_loop (plist : list ParticleData) (acc : Accumulator) : Accumulator :=
  fold_left eckart_body plist acc.

Definition current_eckart_impl (plist : list ParticleData) : EckartResult :=
  eckart_reduce par compute_gradient (eckart_loop plist initial_accumulator).

End CurrentEckart.

(** Both overloads of [current_eckart] forward to the template. *)
Definition current_eckart (really_small : R) (r : ThreeVector.t)
    (plist : list ParticleData) (par : DensityParameters)
    (dens_type : DensityType.t) (compute_gradient smearing : bool) : EckartResult :=
  current_eckart_impl really_small r par dens_type compute_gradient smearing plist.

(** ** The accumulation, as the specification words it *)

Section AccumulationAsSums.

Variable really_small : R.
Variable r : ThreeVector.t.
Variable par : DensityParameters.
Variable dens_type : DensityType.t.
Variables compute_gradient smearing : bool.

(** A particle is passed over when the magnitude of its weight or its
    invariant mass is below the epsilon. *)
Definition skipped (p : ParticleData) : bool :=
  (if Rlt_dec (Rabs (density_factor (type p) dens_type)) really_small
   then true else false)
  || (if Rlt_dec (FourVector.abs (momentum p)) really_small then true else false).

Definition positive_weight (p : ParticleData) : bool :=
  if Rgt_dec (density_factor (type p) dens_type) 0 then true else false.

(** The weight of the geometric kernel for a particle. *)
Definition kernel_weight (p : ParticleData) : R :=
  fst (unnormalized_smearing_factor
         (ThreeVector.sub (FourVector.threevec (position p)) r)
         (momentum p) (1 / FourVector.abs (momentum p)) par compute_gradient).

(** [tmp = momentum * (weight / energy)], times the kernel weight when
    smearing is requested. *)
Definition contribution (p : ParticleData) : FourVector.t :=
  let tmp :=
    FourVector.scale (momentum p)
      (density_factor (type p) dens_type / FourVector.x0 (momentum p)) in
  if smearing then FourVector.scale tmp (kernel_weight p) else tmp.

Definition sum_fourvectors (l : list FourVector.t) : FourVector.t :=
  fold_right FourVector.add FourVector.zero l.

Definition jmu_pos_sum (plist : list ParticleData) : FourVector.t :=
  sum_fourvectors
    (map contribution
       (filter (fun p => negb (skipped p) && positive_weight p) plist)).

Definition jmu_neg_sum (plist : list ParticleData) : FourVector.t :=
  sum_fourvectors
    (map contribution
       (filter (fun p => negb (skipped p) && negb (positive_weight p)) plist)).

End AccumulationAsSums.

(** ** The loop with its divisions under watch *)

Section CheckedDivisions.

Variable really_small : R.
Variable r : ThreeVector.t.
Variable par : DensityParameters.
Variable dens_type : DensityType.t.
Variables compute_gradient smearing : bool.

(** A division faults when the magnitude of its divisor is below the
    epsilon. *)
Definition checked_div (a b : R) : option R :=
  if Rlt_dec (Rabs b) really_small then None else Some (a / b).

Definition checked_fourvector_div (a : FourVector.t) (b : R) : option FourVector.t :=
  if Rlt_dec (Rabs b) really_small then None else Some (FourVector.div a b).

Definition gradient_step_checked (tmp : FourVector.t) (grad : ThreeVector.t)
    (dens_factor : R) (djmu : option (list FourVector.t)) (k : nat)
    : option (list FourVector.t) :=
  match djmu with
  | None => None
  | Some dj =>
      let djmu1 :=
        array_update
          (fun v =>
             FourVector.add v (FourVector.scale tmp (ThreeVector.get grad (k - 1))))
          k dj in
      match
        checked_fourvector_div
          (FourVector.scale
             (FourVector.scale tmp (ThreeVector.get grad (k - 1)))
             (ThreeVector.get (FourVector.threevec tmp) (k - 1)))
          dens_factor
      with
      | None => None
      | Some q => Some (array_update (fun v => FourVector.sub v q) O djmu1)
      end
  end.

Definition eckart_body_checked (oacc : option Accumulator) (p : ParticleData)
    : option Accumulator :=
  match oacc with
  | None => None
  | Some acc =>
      let dens_factor := density_factor (type p) dens_type in
      if Rlt_dec (Rabs dens_factor) really_small then Some acc
      else
        let mom := momentum p in
        let m := FourVector.abs mom in
        if Rlt_dec m really_small then Some acc
        else
          match checked_div 1 m, checked_div dens_factor (FourVector.x0 mom) with
          | Some m_inv, Some w =>
              let sf_and_grad :=
                unnormalized_smearing_factor
                  (ThreeVector.sub (FourVector.threevec (position p)) r)
                  mom m_inv par compute_gradient in
              let tmp := FourVector.scale mom w in
              let acc1 :=
                if smearing then
                  if Rgt_dec dens_factor 0
                  then add_jmu_pos acc (FourVector.scale tmp (fst sf_and_grad))
                  else add_jmu_neg acc (FourVector.scale tmp (fst sf_and_grad))
                else
                  if Rgt_dec dens_factor 0
                  then add_jmu_pos acc tmp
                  else add_jmu_neg acc tmp in
              if compute_gradient
              then
                match
                  fold_left (gradient_step_checked tmp (snd sf_and_grad) dens_factor)
                    [1%nat; 2%nat; 3%nat] (Some (djmu_dx acc1))
                with
                | None => None
                | Some d => Some (set_djmu_dx acc1 d)
                end
              else Some acc1
          | _, _ => None
          end
  end.

Definition current_eckart_checked (plist : list ParticleData) : option EckartResult :=
  match fold_left eckart_body_checked plist (Some initial_accumulator) with
  | None => None
  | Some acc => Some (eckart_reduce par compute_gradient acc)
  end.

End CheckedDivisions.

(** A physical four-momentum: positive energy and not space-like. *)
Definition physical_momentum (p : ParticleData) : Prop :=
  0 < FourVector.x0 (momentum p) /\ 0 <= FourVector.sqr (momentum p).

(** ** update_lattice *)

Section LatticeUpdateEngine.

(** The lattice classes and the node type are not among the sources;
    what [update_lattice] uses of them is taken as given. *)
Variable LatticeUpdate : Type.
Variable LatticeUpdate_eq_dec : forall a b : LatticeUpdate, {a = b} + {a <> b}.
Variable DensityOnLattice : Type.
Variable jmu_net : DensityOnLattice -> FourVector.t.
Variable overwrite_djmu_dxnu :
  DensityOnLattice -> FourVector.t -> FourVector.t -> FourVector.t ->
  FourVector.t -> DensityOnLattice.

Record RectangularLattice (T : Type) : Type := {
  n_cells : Z * Z * Z;
  when_update : LatticeUpdate;
  lattice_ : list T
}.
Arguments n_cells {T} _.
Arguments when_update {T} _.
Arguments lattice_ {T} _.

(** [lat.assign_value(i, v)]. *)
Definition assign_value {T : Type} (l : RectangularLattice T) (i : nat) (v : T)
    : RectangularLattice T :=
  {| n_cells := n_cells l;
     when_update := when_update l;
     lattice_ := array_update (fun _ => v) i (lattice_ l) |}.

(** The overload of [update_lattice] without auxiliary lattices, which
    fills every node from the ensembles, and the finite-difference
    stencil of the lattice class. *)
Variable update_lattice_nodes :
  RectangularLattice DensityOnLattice -> LatticeUpdate -> DensityType.t ->
  DensityParameters -> list (list ParticleData) -> bool ->
  RectangularLattice DensityOnLattice.
Variable compute_four_gradient_lattice :
  RectangularLattice FourVector.t -> RectangularLattice FourVector.t -> R ->
  RectangularLattice (list FourVector.t) -> RectangularLattice (list FourVector.t).

(** The four lattices behind the pointer arguments; [None] is the null
    pointer. *)
Record Lattices : Type := {
  lat : option (RectangularLattice DensityOnLattice);
  old_jmu : option (RectangularLattice FourVector.t);
  new_jmu : option (RectangularLattice FourVector.t);
  four_grad_lattice : option (RectangularLattice (list FourVector.t))
}.

(** The loops that copy [jmu_net()] of every node [i] of the lattice into
    [dst] with [assign_value].  The result
    is [None] when a pass dereferences a null pointer or reads a node out
    of range. *)
Fixpoint snapshot_jmu (l : RectangularLattice DensityOnLattice) (idx : list nat)
    (dst : option (RectangularLattice FourVector.t))
    : option (option (RectangularLattice FourVector.t)) :=
  match idx with
  | [] => Some dst
  | i :: rest =>
      match dst, nth_error (lattice_ l) i with
      | Some d, Some node => snapshot_jmu l rest (Some (assign_value d i (jmu_net node)))
      | _, _ => None
      end
  end.

(** [for (auto &node : *lat) { ... node_number++; }] *)
Fixpoint substitute_derivatives (g : RectangularLattice (list FourVector.t))
    (nodes : list DensityOnLattice) (node_number : nat)
    : option (list DensityOnLattice) :=
  match nodes with
  | [] => Some []
  | node :: rest =>
      match nth_error (lattice_ g) node_number,
            substitute_derivatives g rest (S node_number) with
      | Some tmp, Some rest' =>
          Some (overwrite_djmu_dxnu node
                  (nth 0 tmp FourVector.zero) (nth 1 tmp FourVector.zero)
                  (nth 2 tmp FourVector.zero) (nth 3 tmp FourVector.zero)
                :: rest')
      | _, _ => None
      end
  end.

(** The result is [None] when the run dereferences a null pointer or
    indexes a lattice out of range, and the new state otherwise. *)
Definition update_lattice (st : Lattices) (update : LatticeUpdate)
    (dens_type : DensityType.t) (par : DensityParameters)
    (ensembles : list (list ParticleData)) (time_step : R)
    (compute_gradient : bool) : option Lattices :=
  match lat st with
  | None => Some st
  | Some l =>
      if LatticeUpdate_eq_dec (when_update l) update then
        let '(n0, n1, n2) := n_cells l in
        let number_of_nodes := (n0 * n1 * n2)%Z in
        let idx := seq 0 (Z.to_nat number_of_nodes) in
        let l1 := update_lattice_nodes l update dens_type par ensembles compute_gradient in
        match derivatives par with
        | FiniteDifference =>
            match snapshot_jmu l idx (old_jmu st) with
            | None => None
            | Some old1 =>
                match snapshot_jmu l1 idx (new_jmu st) with
                | None => None
                | Some new1 =>
                    match new1, old1, four_grad_lattice st with
                    | Some n, Some o, Some g =>
                        let g1 := compute_four_gradient_lattice n o time_step g in
                        match substitute_derivatives g1 (lattice_ l1) 0 with
                        | None => None
                        | Some nodes =>
                            Some {| lat := Some {| n_cells := n_cells l1;
                                                   when_update := when_update l1;
                                                   lattice_ := nodes |};
                                    old_jmu := old1;
                                    new_jmu := new1;
                                    four_grad_lattice := Some g1 |}
                        end
                    | _, _, _ => None
                    end
                end
            end
        | _ =>
            Some {| lat := Some l1;
                    old_jmu := old_jmu st;
                    new_jmu := new_jmu st;
                    four_grad_lattice := four_grad_lattice st |}
        end
      else Some st
  end.

End LatticeUpdateEngine.

(** ** operator<< for DensityType *)

(** Modelled from the spec: of [std::ostream], the characters written so
    far and the failbit; output to a stream that has failed writes
    nothing. *)
Record ostream : Type := {
  written : string;
  failbit : bool
}.

Definition good (os : ostream) : bool := negb (failbit os).

(** [os << "text"] *)
Definition put (os : ostream) (text : string) : ostream :=
  if failbit os then os
  else {| written := (written os ++ text)%string; failbit := false |}.

(** [os.setstate(std::ios_base::failbit)] *)
Definition setstate_failbit (os : ostream) : ostream :=
  {| written := written os; failbit := true |}.

(** [std::ostream &operator<<(std::ostream &os, DensityType dens_type)] *)
Definition print_DensityType (os : ostream) (dens_type : DensityType.t) : ostream :=
  match dens_type with
  | DensityType.Hadron => put os "hadron density"
  | DensityType.Baryon => put os "baryon density"
  | DensityType.BaryonicIsospin => put os "baryonic isospin density"
  | DensityType.Pion => put os "pion density"
  | DensityType.Isospin3_tot => put os "total isospin3 density"
  | DensityType.None => put os "none"
  | _ => setstate_failbit os
  end.

(** ** Auxiliary notions of the statements *)

(** The weight of the kernel as a function of the three scalars it reads:
    r.r, r.u and u_t. *)
Definition kernel_value (r_sqr u_r_scalar u_t : R) (par : DensityParameters) : R :=
  if Rgt_dec r_sqr (r_cut_sqr par) then 0
  else if Rgt_dec (r_sqr + u_r_scalar * u_r_scalar) (r_cut_sqr par) then 0
  else exp (- (r_sqr + u_r_scalar * u_r_scalar) * two_sig_sqr_inv par) * u_t.

(** Two particles of opposite weight, flying back to back with the same
    energy, at mirrored places about the field point [r]. *)
Definition opposite_pair (dens_type : DensityType.t) (r : ThreeVector.t)
    (a b : ParticleData) : Prop :=
  density_factor (type b) dens_type = - density_factor (type a) dens_type
  /\ momentum b
     = FourVector.mk (FourVector.x0 (momentum a)) (- FourVector.x1 (momentum a))
         (- FourVector.x2 (momentum a)) (- FourVector.x3 (momentum a))
  /\ ThreeVector.sub (FourVector.threevec (position b)) r
     = ThreeVector.lscale (-1) (ThreeVector.sub (FourVector.threevec (position a)) r).

(** ** Sample inputs *)

Module Sample.

Definition epsilon : R := 1 / 1000000.

Definition species (q : Z) : ParticleType :=
  {| is_hadron := false; is_baryon := false; is_nucleus := false;
     pdgcode_is_pion := false; baryon_number := 0; charge := q;
     strangeness := 0; isospin3 := 0; isospin3_rel := 0 |}.

(** Charge +1 flying along +z from z = 1, charge -1 flying along -z from
    z = -1, both of energy 5 and mass 4. *)
Definition positive_charge : ParticleData :=
  {| type := species 1;
     momentum := FourVector.mk 5 0 0 3;
     position := FourVector.mk 0 0 0 1 |}.

Definition negative_charge : ParticleData :=
  {| type := species (-1);
     momentum := FourVector.mk 5 0 0 (-3);
     position := FourVector.mk 0 0 0 (-1) |}.

Definition origin : ThreeVector.t := ThreeVector.zero.

Definition parameters (sigma cutoff : R) : DensityParameters :=
  {| sig := sigma; r_cut := cutoff; norm_factor_sf := 1;
     derivatives := CovariantGaussian |}.

(** A particle at rest, one cutoff radius away from the field point. *)
Definition boundary_offset : ThreeVector.t := ThreeVector.mk 1 0 0.
Definition momentum_at_rest : FourVector.t := FourVector.mk 1 0 0 0.

(** A lattice engine with trivial collaborators, and a state with no
    primary lattice. *)
Definition no_lattice : Lattices bool FourVector.t :=
  {| lat := None; old_jmu := None; new_jmu := None; four_grad_lattice := None |}.

Definition empty_stream : ostream := {| written := EmptyString; failbit := false |}.

End Sample.

(** ** What one particle adds to the accumulator *)

Definition sum_threevectors (l : list ThreeVector.t) : ThreeVector.t :=
  fold_right ThreeVector.add ThreeVector.zero l.

(** The amounts one pass of the loop adds to the two sums and to the
    spatial buckets of [djmu_dx], and the amount it takes from bucket 0. *)
Record Increment : Type := {
  to_pos : FourVector.t;
  to_neg : FourVector.t;
  from_time : FourVector.t;
  to_x : FourVector.t;
  to_y : FourVector.t;
  to_z : FourVector.t
}.

Definition zero_increment : Increment :=
  {| to_pos := FourVector.zero; to_neg := FourVector.zero;
     from_time := FourVector.zero; to_x := FourVector.zero;
     to_y := FourVector.zero; to_z := FourVector.zero |}.

Definition add_increment (i j : Increment) : Increment :=
  {| to_pos := FourVector.add (to_pos i) (to_pos j);
     to_neg := FourVector.add (to_neg i) (to_neg j);
     from_time := FourVector.add (from_time i) (from_time j);
     to_x := FourVector.add (to_x i) (to_x j);
     to_y := FourVector.add (to_y i) (to_y j);
     to_z := FourVector.add (to_z i) (to_z j) |}.

Definition sum_increments (l : list Increment) : Increment :=
  fold_right add_increment zero_increment l.

Definition apply_increment (acc : Accumulator) (i : Increment) : Accumulator :=
  {| jmu_pos := FourVector.add (jmu_pos acc) (to_pos i);
     jmu_neg := FourVector.add (jmu_neg acc) (to_neg i);
     djmu_dx :=
       match djmu_dx acc with
       | [d0; d1; d2; d3] =>
           [FourVector.sub d0 (from_time i); FourVector.add d1 (to_x i);
            FourVector.add d2 (to_y i); FourVector.add d3 (to_z i)]
       | other => other
       end |}.

Section ParticleTerms.

Variable really_small : R.
Variable r : ThreeVector.t.
Variable par : DensityParameters.
Variable dens_type : DensityType.t.
Variables compute_gradient smearing : bool.

(** [tmp = mom * (dens_factor / mom.x0())] *)
Definition tmp_of (p : ParticleData) : FourVector.t :=
  FourVector.scale (momentum p)
    (density_factor (type p) dens_type / FourVector.x0 (momentum p)).

(** The gradient of the geometric kernel for a particle. *)
Definition kernel_gradient (p : ParticleData) : ThreeVector.t :=
  snd (unnormalized_smearing_factor
         (ThreeVector.sub (FourVector.threevec (position p)) r)
         (momentum p) (1 / FourVector.abs (momentum p)) par compute_gradient).

(** [tmp * sf_and_grad.second[k - 1]] *)
Definition spatial_term (k : nat) (p : ParticleData) : FourVector.t :=
  FourVector.scale (tmp_of p) (ThreeVector.get (kernel_gradient p) (k - 1)).

(** [tmp * sf_and_grad.second[k - 1] * tmp.threevec()[k - 1] / dens_factor] *)
Definition time_term (k : nat) (p : ParticleData) : FourVector.t :=
  FourVector.div
    (FourVector.scale (spatial_term k p)
       (ThreeVector.get (FourVector.threevec (tmp_of p)) (k - 1)))
    (density_factor (type p) dens_type).

Definition particle_increment (p : ParticleData) : Increment :=
  if skipped really_small dens_type p then zero_increment
  else
    {| to_pos :=
         if positive_weight dens_type p
         then contribution r par dens_type compute_gradient smearing p
         else FourVector.zero;
       to_neg :=
         if positive_weight dens_type p
         then FourVector.zero
         else contribution r par dens_type compute_gradient smearing p;
       from_time :=
         if compute_gradient
         then FourVector.add (FourVector.add (time_term 1 p) (time_term 2 p))
                (time_term 3 p)
         else FourVector.zero;
       to_x := if compute_gradient then spatial_term 1 p else FourVector.zero;
       to_y := if compute_gradient then spatial_term 2 p else FourVector.zero;
       to_z := if compute_gradient then spatial_term 3 p else FourVector.zero |}.

(** The weight a contribution carries: that of the kernel under smearing,
    1 otherwise. *)
Definition applied_weight (p : ParticleData) : R :=
  if smearing then kernel_weight r par compute_gradient p else 1.

End ParticleTerms.

(** ** Sample lattices *)

Module SampleLattice.

Definition one_node {T : Type} (x : T) : RectangularLattice bool T :=
  {| n_cells := (1%Z, 1%Z, 1%Z); when_update := true; lattice_ := [x] |}.

Definition unit_current : FourVector.t := FourVector.mk 1 0 0 0.

(** One node carrying a net current, with auxiliary lattices of the same
    shape; the node type is its net current, overwriting the derivatives
    of a node keeps it, the inner update doubles the current of every node
    and the stencil writes the difference of the two snapshots divided by
    the time step into the first slot of every node. *)
Definition state : Lattices bool FourVector.t :=
  {| lat := Some (one_node unit_current);
     old_jmu := Some (one_node FourVector.zero);
     new_jmu := Some (one_node FourVector.zero);
     four_grad_lattice :=
       Some (one_node [FourVector.zero; FourVector.zero; FourVector.zero;
                       FourVector.zero]) |}.

Definition jmu_net (node : FourVector.t) : FourVector.t := node.

Definition overwrite_djmu_dxnu (node d0 d1 d2 d3 : FourVector.t) : FourVector.t :=
  node.

Definition update_lattice_nodes (l : RectangularLattice bool FourVector.t)
    (update : bool) (dens_type : DensityType.t) (par : DensityParameters)
    (ensembles : list (list ParticleData)) (compute_gradient : bool)
    : RectangularLattice bool FourVector.t :=
  {| n_cells := n_cells _ _ l;
     when_update := when_update _ _ l;
     lattice_ := map (fun j => FourVector.scale j 2) (lattice_ _ _ l) |}.

Definition compute_four_gradient_lattice
    (new_jmu old_jmu : RectangularLattice bool FourVector.t) (time_step : R)
    (g : RectangularLattice bool (list FourVector.t))
    : RectangularLattice bool (list FourVector.t) :=
  {| n_cells := n_cells _ _ g;
     when_update := when_update _ _ g;
     lattice_ :=
       map (fun pair : FourVector.t * FourVector.t =>
              [FourVector.div (FourVector.sub (fst pair) (snd pair)) time_step;
               FourVector.zero; FourVector.zero; FourVector.zero])
         (combine (lattice_ _ _ new_jmu) (lattice_ _ _ old_jmu)) |}.

Definition finite_difference_parameters : DensityParameters :=
  {| sig := 1; r_cut := 4; norm_factor_sf := 1; derivatives := FiniteDifference |}.

End SampleLattice.

(** ** More sample particles *)

Module SampleParticles.

(** A particle without charge, of energy 5 and mass 4. *)
Definition neutral : ParticleData :=
  {| type := Sample.species 0;
     momentum := FourVector.mk 5 0 0 3;
     position := FourVector.mk 0 0 0 1 |}.

End SampleParticles.

(** ** Notions of the further statements *)

(** The vector product of two three-vectors. *)
Definition cross_product (a b : ThreeVector.t) : ThreeVector.t :=
  ThreeVector.mk
    (ThreeVector.x2 a * ThreeVector.x3 b - ThreeVector.x3 a * ThreeVector.x2 b)
    (ThreeVector.x3 a * ThreeVector.x1 b - ThreeVector.x1 a * ThreeVector.x3 b)
    (ThreeVector.x1 a * ThreeVector.x2 b - ThreeVector.x2 a * ThreeVector.x1 b).

(** The particle moved in space by [a], at any time [t]. *)
Definition translate (a : ThreeVector.t) (t : R) (p : ParticleData) : ParticleData :=
  {| type := type p;
     momentum := momentum p;
     position :=
       FourVector.mk t
         (FourVector.x1 (position p) + ThreeVector.x1 a)
         (FourVector.x2 (position p) + ThreeVector.x2 a)
         (FourVector.x3 (position p) + ThreeVector.x3 a) |}.

(** [q] is [p] with the opposite weight: same momentum, same place. *)
Definition opposite_weight (dens_type : DensityType.t) (p q : ParticleData) : Prop :=
  density_factor (type q) dens_type = - density_factor (type p) dens_type
  /\ momentum q = momentum p
  /\ position q = position p.

(** The increment with the two sums exchanged and every entry negated. *)
Definition flip_increment (i : Increment) : Increment :=
  {| to_pos := FourVector.scale (to_neg i) (-1);
     to_neg := FourVector.scale (to_pos i) (-1);
     from_time := FourVector.scale (from_time i) (-1);
     to_x := FourVector.scale (to_x i) (-1);
     to_y := FourVector.scale (to_y i) (-1);
     to_z := FourVector.scale (to_z i) (-1) |}.

Module SampleAntiparticle.

(** [Sample.positive_charge] with the opposite charge. *)
Definition anti_positive_charge : ParticleData :=
  {| type := Sample.species (-1);
     momentum := FourVector.mk 5 0 0 3;
     position := FourVector.mk 0 0 0 1 |}.

End SampleAntiparticle.

Module SampleHadron.

(** A hadron of baryon number and charge 1. *)
Definition species : ParticleType :=
  {| is_hadron := true; is_baryon := true; is_nucleus := false;
     pdgcode_is_pion := false; baryon_number := 1; charge := 1;
     strangeness := 0; isospin3 := 1; isospin3_rel := 1 |}.

(** Two hadrons of energy 5 and mass 4, flying along +z and along -z. *)
Definition forward : ParticleData :=
  {| type := species;
     momentum := FourVector.mk 5 0 0 3;
     position := FourVector.mk 0 0 0 1 |}.

Definition backward : ParticleData :=
  {| type := species;
     momentum := FourVector.mk 5 0 0 (-3);
     position := FourVector.mk 0 0 0 (-1) |}.

End SampleHadron.

(** * Properties *)

(** ** Vector arithmetic *)

Lemma fourvector_eq (a b : FourVector.t) :
  FourVector.x0 a = FourVector.x0 b -> FourVector.x1 a = FourVector.x1 b ->
  FourVector.x2 a = FourVector.x2 b -> FourVector.x3 a = FourVector.x3 b ->
  a = b.
Proof.
  destruct a, b; simpl; intros; subst; reflexivity.
Qed.

Lemma threevector_eq (a b : ThreeVector.t) :
  ThreeVector.x1 a = ThreeVector.x1 b -> ThreeVector.x2 a = ThreeVector.x2 b ->
  ThreeVector.x3 a = ThreeVector.x3 b -> a = b.
Proof.
  destruct a, b; simpl; intros; subst; reflexivity.
Qed.

Ltac fourvector_ring := apply fourvector_eq; simpl; ring.
Ltac threevector_ring := apply threevector_eq; simpl; ring.

Lemma fourvector_add_zero_l (a : FourVector.t) :
  FourVector.add FourVector.zero a = a.
Proof. fourvector_ring. Qed.

Lemma fourvector_add_zero_r (a : FourVector.t) :
  FourVector.add a FourVector.zero = a.
Proof. fourvector_ring. Qed.

Lemma fourvector_add_assoc (a b c : FourVector.t) :
  FourVector.add (FourVector.add a b) c = FourVector.add a (FourVector.add b c).
Proof. fourvector_ring. Qed.

Lemma fourvector_abs_zero : FourVector.abs FourVector.zero = 0.
Proof.
  unfold FourVector.abs, FourVector.sqr; simpl.
  replace (0 * 0 - (0 * 0 + 0 * 0 + 0 * 0)) with 0 by ring.
  apply sqrt_0.
Qed.

(** The rest-frame distance of the kernel is never below the lab-frame
    one. *)
Lemma rest_frame_distance_ge (r_sqr u_r_scalar : R) :
  r_sqr <= r_sqr + u_r_scalar * u_r_scalar.
Proof. nra. Qed.

(** ** density_factor *)

(** C3: [density_factor] is a total function of the species and the tag,
    with value 1 or 0 for a hadron under Hadron, the baryon number under
    Baryon (0 when that number is 0), the relative isospin-3 of a baryon or
    nucleus under BaryonicIsospin and 0 otherwise, 1 or 0 for a pion under
    Pion, the isospin-3 of a hadron under Isospin3_tot and 0 otherwise, the
    charge under Charge, the strangeness under Strangeness, 0 under None. *)
Theorem density_factor_values (type : ParticleType) :
  density_factor type DensityType.Hadron = (if is_hadron type then 1 else 0)
  /\ density_factor type DensityType.Baryon = IZR (baryon_number type)
  /\ (if Z.eqb (baryon_number type) 0
      then density_factor type DensityType.Baryon = 0
      else density_factor type DensityType.Baryon <> 0)
  /\ density_factor type DensityType.BaryonicIsospin
     = (if is_baryon type || is_nucleus type then isospin3_rel type else 0)
  /\ density_factor type DensityType.Pion = (if pdgcode_is_pion type then 1 else 0)
  /\ density_factor type DensityType.Isospin3_tot
     = (if is_hadron type then isospin3 type else 0)
  /\ density_factor type DensityType.Charge = IZR (charge type)
  /\ density_factor type DensityType.Strangeness = IZR (strangeness type)
  /\ density_factor type DensityType.None = 0.
Proof.
  repeat split; try reflexivity.
  simpl. destruct (Z.eqb_spec (baryon_number type) 0) as [E | E].
  - rewrite E. reflexivity.
  - intro H. apply eq_IZR_R0 in H. contradiction.
Qed.

(** ** unnormalized_smearing_factor *)

Section Kernel.

Variable r : ThreeVector.t.
Variable p : FourVector.t.
Variable m_inv : R.
Variable par : DensityParameters.
Variable compute_gradient : bool.

Let u := FourVector.scale p m_inv.
Let u_r := ThreeVector.dot r (FourVector.threevec u).
Let r_rest_sqr := ThreeVector.sqr r + u_r * u_r.

Lemma kernel_beyond_lab_cutoff :
  ThreeVector.sqr r > r_cut_sqr par ->
  unnormalized_smearing_factor r p m_inv par compute_gradient
  = (0, ThreeVector.zero).
Proof.
  intro H. unfold unnormalized_smearing_factor.
  destruct (Rgt_dec (ThreeVector.sqr r) (r_cut_sqr par)); [reflexivity | contradiction].
Qed.

Lemma kernel_beyond_rest_cutoff :
  r_rest_sqr > r_cut_sqr par ->
  unnormalized_smearing_factor r p m_inv par compute_gradient
  = (0, ThreeVector.zero).
Proof.
  intro H. unfold unnormalized_smearing_factor.
  destruct (Rgt_dec (ThreeVector.sqr r) (r_cut_sqr par)); [reflexivity | ].
  fold u. fold u_r. fold r_rest_sqr.
  destruct (Rgt_dec r_rest_sqr (r_cut_sqr par)); [reflexivity | contradiction].
Qed.

(** Within the cutoff the code returns its Gaussian and gradient, in the
    form the code computes them. *)
Lemma kernel_within_cutoff :
  r_rest_sqr <= r_cut_sqr par ->
  unnormalized_smearing_factor r p m_inv par compute_gradient
  = (exp (- r_rest_sqr * two_sig_sqr_inv par) * FourVector.x0 u,
     if compute_gradient
     then ThreeVector.scale
            (ThreeVector.scale
               (ThreeVector.lscale
                  (exp (- r_rest_sqr * two_sig_sqr_inv par) * FourVector.x0 u)
                  (ThreeVector.add r (ThreeVector.scale (FourVector.threevec u) u_r)))
               (two_sig_sqr_inv par))
            2
     else ThreeVector.zero).
Proof.
  intro H. unfold unnormalized_smearing_factor.
  fold u. fold u_r. fold r_rest_sqr.
  assert (Hlab : ThreeVector.sqr r <= r_rest_sqr)
    by apply rest_frame_distance_ge.
  destruct (Rgt_dec (ThreeVector.sqr r) (r_cut_sqr par)); [lra | ].
  destruct (Rgt_dec r_rest_sqr (r_cut_sqr par)); [lra | reflexivity].
Qed.

End Kernel.

(** The precomputed [1/(2 sigma^2)], read back in terms of the width. *)
Lemma gaussian_exponent (par : DensityParameters) (x : R) :
  0 < sig par ->
  - x * two_sig_sqr_inv par = - x / (2 * (sig par * sig par)).
Proof.
  intro H. unfold two_sig_sqr_inv. field. lra.
Qed.

(** C2: beyond the cutoff in the lab frame the kernel returns weight 0 and
    the zero gradient whatever the momentum and the inverse mass; beyond
    the cutoff in the rest frame, with r_rest^2 = r.r + (r.u)^2, it does
    too; otherwise the weight is exp(-r_rest^2 / (2 sigma^2)) * u_t and the
    gradient is weight * (r + u * u_r) / sigma^2 when requested and zero
    when not. *)
Theorem kernel_weight_and_gradient
    (r : ThreeVector.t) (p : FourVector.t) (m_inv : R)
    (par : DensityParameters) (compute_gradient : bool) :
  valid_parameters par ->
  let u := FourVector.scale p m_inv in
  let u_r := ThreeVector.dot r (FourVector.threevec u) in
  let r_rest_sqr := ThreeVector.sqr r + u_r * u_r in
  let sigma_sqr := sig par * sig par in
  let weight := exp (- r_rest_sqr / (2 * sigma_sqr)) * FourVector.x0 u in
  (ThreeVector.sqr r > r_cut_sqr par ->
   forall (p' : FourVector.t) (m_inv' : R),
     unnormalized_smearing_factor r p' m_inv' par compute_gradient
     = (0, ThreeVector.zero))
  /\ (r_rest_sqr > r_cut_sqr par ->
      unnormalized_smearing_factor r p m_inv par compute_gradient
      = (0, ThreeVector.zero))
  /\ (~ ThreeVector.sqr r > r_cut_sqr par -> ~ r_rest_sqr > r_cut_sqr par ->
      unnormalized_smearing_factor r p m_inv par compute_gradient
      = (weight,
         if compute_gradient
         then ThreeVector.mk
                (weight * (ThreeVector.x1 r + FourVector.x1 u * u_r) / sigma_sqr)
                (weight * (ThreeVector.x2 r + FourVector.x2 u * u_r) / sigma_sqr)
                (weight * (ThreeVector.x3 r + FourVector.x3 u * u_r) / sigma_sqr)
         else ThreeVector.zero)).
Proof.
  intros [Hsig Hcut] u u_r r_rest_sqr sigma_sqr weight.
  split; [ | split].
  - intros H p' m_inv'. apply kernel_beyond_lab_cutoff. exact H.
  - intro H. apply kernel_beyond_rest_cutoff. exact H.
  - intros _ H. rewrite kernel_within_cutoff by (apply Rnot_gt_le; exact H).
    fold u. fold u_r. fold r_rest_sqr.
    rewrite (gaussian_exponent par r_rest_sqr Hsig).
    fold sigma_sqr. fold weight.
    f_equal. destruct compute_gradient; [ | reflexivity].
    apply threevector_eq; simpl; unfold two_sig_sqr_inv;
      subst sigma_sqr; field; lra.
Qed.

(** ** The cutoff boundary *)

(** At the boundary of the rest-frame cutoff the particle is kept: the
    weight is the Gaussian at the cutoff times u_t. *)
Lemma kernel_at_rest_boundary
    (r : ThreeVector.t) (p : FourVector.t) (m_inv : R)
    (par : DensityParameters) (compute_gradient : bool) :
  let u := FourVector.scale p m_inv in
  let u_r := ThreeVector.dot r (FourVector.threevec u) in
  ThreeVector.sqr r + u_r * u_r = r_cut_sqr par ->
  fst (unnormalized_smearing_factor r p m_inv par compute_gradient)
  = exp (- r_cut_sqr par * two_sig_sqr_inv par) * FourVector.x0 u.
Proof.
  intros u u_r H.
  rewrite kernel_within_cutoff by (fold u; fold u_r; lra).
  fold u. fold u_r. simpl. rewrite H. reflexivity.
Qed.

Lemma gaussian_factor_nonzero (x t : R) : t <> 0 -> exp x * t <> 0.
Proof.
  intros Ht H. pose proof (exp_pos x) as Hx.
  apply Rmult_integral in H. destruct H; [lra | contradiction].
Qed.

(** C5, as amended: a particle exactly at the cutoff boundary is not
    excluded by the cutoff tests, which are strict.  When the lab-frame r.r
    or the rest-frame r_rest^2 equals the squared cutoff, the first test
    does not reject the particle and the result is decided by the
    rest-frame test alone; when r_rest^2 equals the squared cutoff, the
    kernel returns what it computes inside the cutoff, the weight
    exp(-r_rest^2 * two_sig_sqr_inv) * u_t and, when requested, the gradient
    weight * (r + u * u_r) * two_sig_sqr_inv * 2. *)
Theorem kernel_keeps_boundary
    (r : ThreeVector.t) (p : FourVector.t) (m_inv : R)
    (par : DensityParameters) (compute_gradient : bool) :
  let u := FourVector.scale p m_inv in
  let u_r := ThreeVector.dot r (FourVector.threevec u) in
  let r_rest_sqr := ThreeVector.sqr r + u_r * u_r in
  let sf := exp (- r_rest_sqr * two_sig_sqr_inv par) * FourVector.x0 u in
  let within :=
    (sf,
     if compute_gradient
     then ThreeVector.scale
            (ThreeVector.scale
               (ThreeVector.lscale sf
                  (ThreeVector.add r (ThreeVector.scale (FourVector.threevec u) u_r)))
               (two_sig_sqr_inv par))
            2
     else ThreeVector.zero) in
  ThreeVector.sqr r = r_cut_sqr par \/ r_rest_sqr = r_cut_sqr par ->
  unnormalized_smearing_factor r p m_inv par compute_gradient
  = (if Rgt_dec r_rest_sqr (r_cut_sqr par) then (0, ThreeVector.zero) else within)
  /\ (r_rest_sqr = r_cut_sqr par ->
      unnormalized_smearing_factor r p m_inv par compute_gradient = within).
Proof.
  intros u u_r r_rest_sqr sf within Hboundary.
  assert (Hlab : ~ ThreeVector.sqr r > r_cut_sqr par).
  { pose proof (rest_frame_distance_ge (ThreeVector.sqr r) u_r) as Hle.
    fold r_rest_sqr in Hle. destruct Hboundary; lra. }
  split.
  - unfold unnormalized_smearing_factor.
    destruct (Rgt_dec (ThreeVector.sqr r) (r_cut_sqr par)); [contradiction | ].
    cbv zeta. fold u. fold u_r. fold r_rest_sqr.
    destruct (Rgt_dec r_rest_sqr (r_cut_sqr par)); reflexivity.
  - intro Hrest. subst within sf.
    rewrite kernel_within_cutoff by (fold u; fold u_r; fold r_rest_sqr; lra).
    reflexivity.
Qed.

(** ** The loop of current_eckart *)

Section LoopInvariants.

Variable really_small : R.
Variable r : ThreeVector.t.
Variable par : DensityParameters.
Variable dens_type : DensityType.t.
Variables compute_gradient smearing : bool.

Local Abbreviation body := (eckart_body really_small r par dens_type compute_gradient smearing).
Local Abbreviation loop := (eckart_loop really_small r par dens_type compute_gradient smearing).
Local Abbreviation contrib := (contribution r par dens_type compute_gradient smearing).
Local Abbreviation skip := (skipped really_small dens_type).
Local Abbreviation positive := (positive_weight dens_type).

Lemma eckart_body_jmu_pos (acc : Accumulator) (p : ParticleData) :
  jmu_pos (body acc p)
  = if negb (skip p) && positive p
    then FourVector.add (jmu_pos acc) (contrib p)
    else jmu_pos acc.
Proof.
  unfold eckart_body, skipped, positive_weight, contribution, kernel_weight.
  destruct (Rlt_dec (Rabs (density_factor (type p) dens_type)) really_small);
    [reflexivity | ].
  destruct (Rlt_dec (FourVector.abs (momentum p)) really_small);
    [reflexivity | ].
  destruct smearing, (Rgt_dec (density_factor (type p) dens_type) 0),
    compute_gradient; reflexivity.
Qed.

Lemma eckart_body_jmu_neg (acc : Accumulator) (p : ParticleData) :
  jmu_neg (body acc p)
  = if negb (skip p) && negb (positive p)
    then FourVector.add (jmu_neg acc) (contrib p)
    else jmu_neg acc.
Proof.
  unfold eckart_body, skipped, positive_weight, contribution, kernel_weight.
  destruct (Rlt_dec (Rabs (density_factor (type p) dens_type)) really_small);
    [reflexivity | ].
  destruct (Rlt_dec (FourVector.abs (momentum p)) really_small);
    [reflexivity | ].
  destruct smearing, (Rgt_dec (density_factor (type p) dens_type) 0),
    compute_gradient; reflexivity.
Qed.

Lemma eckart_loop_jmu_pos (plist : list ParticleData) :
  forall acc : Accumulator,
    jmu_pos (loop plist acc)
    = FourVector.add (jmu_pos acc)
        (jmu_pos_sum really_small r par dens_type compute_gradient smearing plist).
Proof.
  unfold eckart_loop, jmu_pos_sum.
  induction plist as [ | p plist IH]; intro acc; simpl.
  - symmetry. apply fourvector_add_zero_r.
  - rewrite IH, eckart_body_jmu_pos.
    destruct (negb (skip p) && positive p); simpl; [ | reflexivity].
    apply fourvector_add_assoc.
Qed.

Lemma eckart_loop_jmu_neg (plist : list ParticleData) :
  forall acc : Accumulator,
    jmu_neg (loop plist acc)
    = FourVector.add (jmu_neg acc)
        (jmu_neg_sum really_small r par dens_type compute_gradient smearing plist).
Proof.
  unfold eckart_loop, jmu_neg_sum.
  induction plist as [ | p plist IH]; intro acc; simpl.
  - symmetry. apply fourvector_add_zero_r.
  - rewrite IH, eckart_body_jmu_neg.
    destruct (negb (skip p) && negb (positive p)); simpl; [ | reflexivity].
    apply fourvector_add_assoc.
Qed.

(** C1: a pass of the loop adds the contribution of a particle that is
    not skipped, tmp = momentum * (weight / energy) times the kernel
    weight when smearing is requested and tmp itself otherwise, to the
    positive sum when its weight is positive and to the negative sum
    otherwise; the Eckart density returned is the difference of the
    invariant norms of the two sums times the normalisation factor, and
    the four-current returned is their sum times that factor. *)
Theorem current_eckart_accumulates (plist : list ParticleData) :
  (forall (acc : Accumulator) (p : ParticleData),
      jmu_pos (body acc p)
      = (if negb (skip p) && positive p
         then FourVector.add (jmu_pos acc) (contrib p) else jmu_pos acc)
      /\ jmu_neg (body acc p)
         = (if negb (skip p) && negb (positive p)
            then FourVector.add (jmu_neg acc) (contrib p) else jmu_neg acc))
  /\ rho_eck_of
       (current_eckart really_small r plist par dens_type compute_gradient smearing)
     = (FourVector.abs
          (jmu_pos_sum really_small r par dens_type compute_gradient smearing plist)
        - FourVector.abs
            (jmu_neg_sum really_small r par dens_type compute_gradient smearing plist))
       * norm_factor_sf par
  /\ jmu_of
       (current_eckart really_small r plist par dens_type compute_gradient smearing)
     = FourVector.scale
         (FourVector.add
            (jmu_pos_sum really_small r par dens_type compute_gradient smearing plist)
            (jmu_neg_sum really_small r par dens_type compute_gradient smearing plist))
         (norm_factor_sf par).
Proof.
  split; [ | split].
  - intros acc p. split; [apply eckart_body_jmu_pos | apply eckart_body_jmu_neg].
  - unfold current_eckart, current_eckart_impl, eckart_reduce, rho_eck_of.
    rewrite eckart_loop_jmu_pos, eckart_loop_jmu_neg. simpl.
    rewrite !fourvector_add_zero_l. reflexivity.
  - unfold current_eckart, current_eckart_impl, eckart_reduce, jmu_of.
    rewrite eckart_loop_jmu_pos, eckart_loop_jmu_neg. simpl.
    rewrite !fourvector_add_zero_l. reflexivity.
Qed.

(** Without gradients the derivative outputs do not look at the sums. *)
Lemma eckart_reduce_no_gradient (acc : Accumulator) :
  eckart_reduce par false acc
  = ((FourVector.abs (jmu_pos acc) - FourVector.abs (jmu_neg acc))
     * norm_factor_sf par,
     FourVector.scale (FourVector.add (jmu_pos acc) (jmu_neg acc))
       (norm_factor_sf par),
     ThreeVector.zero, ThreeVector.zero, ThreeVector.zero).
Proof. reflexivity. Qed.

End LoopInvariants.

(** C7: for the empty particle list [current_eckart] returns density 0, the
    zero four-current and zero vectors for the gradient of the density, the
    time derivative and the curl of the current, whatever the field point,
    the parameters, the density type and the two flags; and for any
    particle list the three derivative outputs are zero vectors when
    gradients are not requested. *)
Theorem current_eckart_zero_outputs
    (really_small : R) (r : ThreeVector.t) (par : DensityParameters)
    (dens_type : DensityType.t) (compute_gradient smearing : bool)
    (plist : list ParticleData) :
  current_eckart really_small r [] par dens_type compute_gradient smearing
  = (0, FourVector.zero, ThreeVector.zero, ThreeVector.zero, ThreeVector.zero)
  /\ rho_grad_of (current_eckart really_small r plist par dens_type false smearing)
     = ThreeVector.zero
  /\ dj_dt_of (current_eckart really_small r plist par dens_type false smearing)
     = ThreeVector.zero
  /\ j_rot_of (current_eckart really_small r plist par dens_type false smearing)
     = ThreeVector.zero.
Proof.
  split; [ | repeat split].
  unfold current_eckart, current_eckart_impl, eckart_loop, eckart_reduce. simpl.
  rewrite fourvector_abs_zero.
  replace ((0 - 0) * norm_factor_sf par) with 0 by ring.
  replace (FourVector.scale (FourVector.add FourVector.zero FourVector.zero)
             (norm_factor_sf par))
    with FourVector.zero by fourvector_ring.
  destruct compute_gradient; [ | reflexivity].
  repeat f_equal; threevector_ring.
Qed.

(** ** Unsmeared mode *)

Lemma eckart_body_unsmeared
    (really_small : R) (r1 r2 : ThreeVector.t) (par1 par2 : DensityParameters)
    (dens_type : DensityType.t) (acc : Accumulator) (p : ParticleData) :
  eckart_body really_small r1 par1 dens_type false false acc p
  = eckart_body really_small r2 par2 dens_type false false acc p.
Proof.
  unfold eckart_body.
  destruct (Rlt_dec (Rabs (density_factor (type p) dens_type)) really_small);
    [reflexivity | ].
  destruct (Rlt_dec (FourVector.abs (momentum p)) really_small); reflexivity.
Qed.

Lemma eckart_loop_unsmeared
    (really_small : R) (r1 r2 : ThreeVector.t) (par1 par2 : DensityParameters)
    (dens_type : DensityType.t) (plist : list ParticleData) :
  forall acc : Accumulator,
    eckart_loop really_small r1 par1 dens_type false false plist acc
    = eckart_loop really_small r2 par2 dens_type false false plist acc.
Proof.
  unfold eckart_loop.
  induction plist as [ | p plist IH]; intro acc; simpl; [reflexivity | ].
  rewrite (eckart_body_unsmeared really_small r1 r2 par1 par2). apply IH.
Qed.

(** C10: with smearing disabled and no gradients requested, two calls of
    [current_eckart] on the same particle list and density type return the
    same tuple whatever the two field points and whatever the cutoff radius
    and width of the two parameter sets, as long as these agree on the
    normalisation factor. *)
Theorem current_eckart_unsmeared_independent
    (really_small : R) (r1 r2 : ThreeVector.t) (par1 par2 : DensityParameters)
    (dens_type : DensityType.t) (plist : list ParticleData) :
  norm_factor_sf par1 = norm_factor_sf par2 ->
  current_eckart really_small r1 plist par1 dens_type false false
  = current_eckart really_small r2 plist par2 dens_type false false.
Proof.
  intro Hnorm. unfold current_eckart, current_eckart_impl.
  rewrite (eckart_loop_unsmeared really_small r1 r2 par1 par2).
  rewrite !eckart_reduce_no_gradient, Hnorm. reflexivity.
Qed.

(** ** Divisions *)

Lemma mass_le_energy (mom : FourVector.t) :
  0 < FourVector.x0 mom -> 0 <= FourVector.sqr mom ->
  FourVector.abs mom <= FourVector.x0 mom.
Proof.
  intros Hpos Hsqr. unfold FourVector.abs.
  apply Rle_trans with (sqrt (FourVector.x0 mom * FourVector.x0 mom)).
  - apply sqrt_le_1; [exact Hsqr | nra | ].
    unfold FourVector.sqr. nra.
  - rewrite sqrt_square by lra. lra.
Qed.

Lemma checked_div_safe (really_small a b : R) :
  ~ Rabs b < really_small ->
  checked_div really_small a b = Some (a / b).
Proof.
  intro H. unfold checked_div.
  destruct (Rlt_dec (Rabs b) really_small); [contradiction | reflexivity].
Qed.

Lemma gradient_step_checked_safe
    (really_small : R) (tmp : FourVector.t) (grad : ThreeVector.t)
    (dens_factor : R) (dj : list FourVector.t) (k : nat) :
  ~ Rabs dens_factor < really_small ->
  gradient_step_checked really_small tmp grad dens_factor (Some dj) k
  = Some (gradient_step tmp grad dens_factor dj k).
Proof.
  intro H. unfold gradient_step_checked, gradient_step, checked_fourvector_div.
  destruct (Rlt_dec (Rabs dens_factor) really_small); [contradiction | reflexivity].
Qed.

Lemma gradient_loop_checked_safe
    (really_small : R) (tmp : FourVector.t) (grad : ThreeVector.t)
    (dens_factor : R) (ks : list nat) :
  ~ Rabs dens_factor < really_small ->
  forall dj : list FourVector.t,
    fold_left (gradient_step_checked really_small tmp grad dens_factor) ks (Some dj)
    = Some (fold_left (gradient_step tmp grad dens_factor) ks dj).
Proof.
  intro H. induction ks as [ | k ks IH]; intro dj; [reflexivity | ].
  cbn [fold_left]. rewrite gradient_step_checked_safe by exact H. apply IH.
Qed.

Lemma eckart_body_checked_safe
    (really_small : R) (r : ThreeVector.t) (par : DensityParameters)
    (dens_type : DensityType.t) (compute_gradient smearing : bool)
    (acc : Accumulator) (p : ParticleData) :
  physical_momentum p ->
  eckart_body_checked really_small r par dens_type compute_gradient smearing
    (Some acc) p
  = Some (eckart_body really_small r par dens_type compute_gradient smearing acc p).
Proof.
  intros [Hpos Hsqr]. unfold eckart_body_checked, eckart_body.
  destruct (Rlt_dec (Rabs (density_factor (type p) dens_type)) really_small)
    as [ | Hw]; [reflexivity | ].
  destruct (Rlt_dec (FourVector.abs (momentum p)) really_small)
    as [ | Hm]; [reflexivity | ].
  pose proof (mass_le_energy (momentum p) Hpos Hsqr) as Hle.
  rewrite checked_div_safe
    by (pose proof (Rle_abs (FourVector.abs (momentum p))); lra).
  rewrite checked_div_safe
    by (pose proof (Rle_abs (FourVector.x0 (momentum p))); lra).
  destruct compute_gradient; [ | reflexivity].
  cbv zeta. rewrite gradient_loop_checked_safe by exact Hw.
  reflexivity.
Qed.

(** C6: when every particle of the list has a physical four-momentum,
    positive energy and not space-like, no division of the loop has a
    divisor of magnitude below [really_small]: the run under watch, which
    faults at such a division, does not fault and returns what
    [current_eckart] returns. *)
Theorem current_eckart_divisions_safe
    (really_small : R) (r : ThreeVector.t) (par : DensityParameters)
    (dens_type : DensityType.t) (compute_gradient smearing : bool)
    (plist : list ParticleData) :
  Forall physical_momentum plist ->
  current_eckart_checked really_small r par dens_type compute_gradient smearing plist
  = Some (current_eckart really_small r plist par dens_type compute_gradient smearing).
Proof.
  intro Hphys.
  unfold current_eckart_checked, current_eckart, current_eckart_impl, eckart_loop.
  generalize initial_accumulator as acc.
  induction Hphys as [ | p plist Hp _ IH]; intro acc; cbn [fold_left].
  - reflexivity.
  - rewrite eckart_body_checked_safe by exact Hp. apply IH.
Qed.

(** ** Opposite pairs *)

Lemma kernel_weight_value
    (r : ThreeVector.t) (p : FourVector.t) (m_inv : R)
    (par : DensityParameters) (compute_gradient : bool) :
  fst (unnormalized_smearing_factor r p m_inv par compute_gradient)
  = kernel_value (ThreeVector.sqr r)
      (ThreeVector.dot r (FourVector.threevec (FourVector.scale p m_inv)))
      (FourVector.x0 p * m_inv) par.
Proof.
  unfold unnormalized_smearing_factor, kernel_value.
  destruct (Rgt_dec (ThreeVector.sqr r) (r_cut_sqr par)); [reflexivity | ].
  cbv zeta.
  destruct (Rgt_dec _ (r_cut_sqr par)); reflexivity.
Qed.

Lemma fourvector_abs_of_sqr (a b : FourVector.t) :
  FourVector.sqr a = FourVector.sqr b -> FourVector.abs a = FourVector.abs b.
Proof.
  intro H. unfold FourVector.abs. rewrite H. reflexivity.
Qed.

Section OppositePair.

Variable really_small : R.
Variable r : ThreeVector.t.
Variable par : DensityParameters.
Variable dens_type : DensityType.t.
Variables compute_gradient smearing : bool.
Variables a b : ParticleData.

Hypothesis epsilon_positive : 0 < really_small.
Hypothesis mirrored : opposite_pair dens_type r a b.

Local Abbreviation contrib := (contribution r par dens_type compute_gradient smearing).
Local Abbreviation skip := (skipped really_small dens_type).
Local Abbreviation positive := (positive_weight dens_type).

Lemma opposite_pair_mass :
  FourVector.abs (momentum b) = FourVector.abs (momentum a).
Proof.
  destruct mirrored as (_ & Hmom & _).
  apply fourvector_abs_of_sqr. rewrite Hmom.
  unfold FourVector.sqr; simpl. ring.
Qed.

Lemma opposite_pair_kernel_weight :
  kernel_weight r par compute_gradient b = kernel_weight r par compute_gradient a.
Proof.
  unfold kernel_weight. rewrite !kernel_weight_value, opposite_pair_mass.
  destruct mirrored as (_ & Hmom & Hpos). rewrite Hmom, Hpos.
  f_equal.
  - unfold ThreeVector.sqr, ThreeVector.dot; simpl. ring.
  - unfold ThreeVector.dot; simpl. ring.
Qed.

Lemma opposite_pair_contribution_sqr :
  FourVector.sqr (contrib b) = FourVector.sqr (contrib a).
Proof.
  unfold contribution. rewrite opposite_pair_kernel_weight.
  destruct mirrored as (Hw & Hmom & _). rewrite Hmom, Hw.
  destruct smearing; unfold FourVector.sqr; simpl; unfold Rdiv; ring.
Qed.

Lemma opposite_pair_contribution_x0 :
  FourVector.x0 (contrib b) = - FourVector.x0 (contrib a).
Proof.
  unfold contribution. rewrite opposite_pair_kernel_weight.
  destruct mirrored as (Hw & Hmom & _). rewrite Hmom, Hw.
  destruct smearing; simpl; unfold Rdiv; ring.
Qed.

Lemma opposite_pair_skipped : skip b = skip a.
Proof.
  unfold skipped. rewrite opposite_pair_mass.
  destruct mirrored as (Hw & _). rewrite Hw, Rabs_Ropp. reflexivity.
Qed.

Lemma opposite_pair_sign : skip a = false -> positive b = negb (positive a).
Proof.
  unfold skipped, positive_weight. destruct mirrored as (Hw & _). rewrite Hw.
  destruct (Rlt_dec (Rabs (density_factor (type a) dens_type)) really_small)
    as [ | Hbig]; [discriminate | ].
  intros _.
  assert (density_factor (type a) dens_type <> 0).
  { intro H0. rewrite H0, Rabs_R0 in Hbig. lra. }
  destruct (Rgt_dec (- density_factor (type a) dens_type) 0),
    (Rgt_dec (density_factor (type a) dens_type) 0); simpl; try reflexivity; lra.
Qed.

(** The two sums of the pair have the same Minkowski square, and their
    time components are opposite. *)
Lemma opposite_pair_sums :
  let acc :=
    eckart_loop really_small r par dens_type compute_gradient smearing [a; b]
      initial_accumulator in
  FourVector.sqr (jmu_pos acc) = FourVector.sqr (jmu_neg acc)
  /\ FourVector.x0 (jmu_pos acc) + FourVector.x0 (jmu_neg acc) = 0.
Proof.
  intro acc. subst acc.
  rewrite eckart_loop_jmu_pos, eckart_loop_jmu_neg.
  unfold jmu_pos_sum, jmu_neg_sum. cbn [filter].
  rewrite opposite_pair_skipped.
  destruct (skip a) eqn:Hskip; cbn [negb andb map sum_fourvectors fold_right].
  - split; [reflexivity | simpl; ring].
  - rewrite (opposite_pair_sign Hskip).
    pose proof opposite_pair_contribution_sqr as Hsqr.
    pose proof opposite_pair_contribution_x0 as Hx0.
    destruct (positive a); cbn [negb map sum_fourvectors fold_right initial_accumulator
                                 jmu_pos jmu_neg];
      rewrite !fourvector_add_zero_r, !fourvector_add_zero_l;
      (split; [congruence | lra]).
Qed.

Lemma opposite_pair_cancels :
  rho_eck_of
    (current_eckart really_small r [a; b] par dens_type compute_gradient smearing)
  = 0
  /\ FourVector.x0
       (jmu_of
          (current_eckart really_small r [a; b] par dens_type compute_gradient smearing))
     = 0.
Proof.
  destruct opposite_pair_sums as [Hsqr Hx0].
  unfold current_eckart, current_eckart_impl, eckart_reduce, rho_eck_of, jmu_of.
  cbv zeta. split.
  - rewrite (fourvector_abs_of_sqr _ _ Hsqr). ring.
  - cbn [FourVector.x0 FourVector.scale FourVector.add]. rewrite Hx0. ring.
Qed.

Lemma opposite_pair_contribution_threevec :
  FourVector.threevec (contrib b) = FourVector.threevec (contrib a).
Proof.
  unfold contribution. rewrite opposite_pair_kernel_weight.
  destruct mirrored as (Hw & Hmom & _). rewrite Hmom, Hw.
  destruct smearing; apply threevector_eq; simpl; unfold Rdiv; ring.
Qed.

Lemma threevec_of_scaled_sum (x y : FourVector.t) (n : R) :
  FourVector.threevec (FourVector.scale (FourVector.add x y) n)
  = ThreeVector.scale
      (ThreeVector.add (FourVector.threevec x) (FourVector.threevec y)) n.
Proof. reflexivity. Qed.

(** The spatial parts of the two contributions are equal: in the combined
    current they add up. *)
Lemma opposite_pair_current_spatial :
  skip a = false ->
  FourVector.threevec
    (jmu_of
       (current_eckart really_small r [a; b] par dens_type compute_gradient smearing))
  = ThreeVector.scale
      (ThreeVector.lscale 2 (FourVector.threevec (contrib a)))
      (norm_factor_sf par).
Proof.
  intro Hskip.
  unfold current_eckart, current_eckart_impl, eckart_reduce, jmu_of. cbv zeta.
  rewrite eckart_loop_jmu_pos, eckart_loop_jmu_neg.
  unfold jmu_pos_sum, jmu_neg_sum. cbn [filter].
  rewrite opposite_pair_skipped, Hskip, (opposite_pair_sign Hskip).
  pose proof opposite_pair_contribution_threevec as Hsp.
  destruct (positive a); cbn [negb andb map sum_fourvectors fold_right
                               initial_accumulator jmu_pos jmu_neg];
    rewrite !fourvector_add_zero_r, !fourvector_add_zero_l,
      threevec_of_scaled_sum, Hsp;
    threevector_ring.
Qed.

End OppositePair.

(** C4, as amended: for two particles of equal and opposite weight, flying
    back to back at mirrored places about the field point, the Eckart
    density returned is exactly 0, the norms of the positive and of the
    negative sum being equal; in the combined four-current the time
    component cancels, and the spatial part is twice that of one
    contribution, times the normalisation factor, when the particles are
    not skipped. *)
Theorem opposite_pair_density_zero
    (really_small : R) (r : ThreeVector.t) (par : DensityParameters)
    (dens_type : DensityType.t) (compute_gradient smearing : bool)
    (a b : ParticleData) :
  0 < really_small ->
  opposite_pair dens_type r a b ->
  rho_eck_of
    (current_eckart really_small r [a; b] par dens_type compute_gradient smearing)
  = 0
  /\ FourVector.x0
       (jmu_of
          (current_eckart really_small r [a; b] par dens_type compute_gradient smearing))
     = 0
  /\ (skipped really_small dens_type a = false ->
      FourVector.threevec
        (jmu_of
           (current_eckart really_small r [a; b] par dens_type compute_gradient smearing))
      = ThreeVector.scale
          (ThreeVector.lscale 2
             (FourVector.threevec
                (contribution r par dens_type compute_gradient smearing a)))
          (norm_factor_sf par)).
Proof.
  intros Heps Hpair.
  destruct (opposite_pair_cancels really_small r par dens_type compute_gradient
              smearing a b Heps Hpair) as [Hrho Hx0].
  split; [exact Hrho | split; [exact Hx0 | ]].
  apply opposite_pair_current_spatial; assumption.
Qed.

(** ** The sample inputs *)

Lemma sample_epsilon_positive : 0 < Sample.epsilon.
Proof. unfold Sample.epsilon. lra. Qed.

Lemma sample_opposite_pair :
  opposite_pair DensityType.Charge Sample.origin
    Sample.positive_charge Sample.negative_charge.
Proof.
  unfold opposite_pair. split; [ | split].
  - simpl. lra.
  - apply fourvector_eq; simpl; lra.
  - apply threevector_eq; simpl; lra.
Qed.

Lemma sample_mass : FourVector.abs (FourVector.mk 5 0 0 3) = 4.
Proof.
  unfold FourVector.abs, FourVector.sqr; simpl.
  replace (5 * 5 - (0 * 0 + 0 * 0 + 3 * 3)) with (4 * 4) by lra.
  apply sqrt_square. lra.
Qed.

Lemma sample_not_skipped :
  skipped Sample.epsilon DensityType.Charge Sample.positive_charge = false.
Proof.
  unfold skipped, Sample.epsilon. simpl. rewrite sample_mass, Rabs_R1.
  destruct (Rlt_dec 1 (1 / 1000000)); [lra | ].
  destruct (Rlt_dec 4 (1 / 1000000)); [lra | reflexivity].
Qed.

Lemma sample_parameters_valid (sigma cutoff : R) :
  0 < sigma -> 0 < cutoff -> valid_parameters (Sample.parameters sigma cutoff).
Proof. intros; split; assumption. Qed.

(** Charges +1 and -1 flying back to back at mirrored places, neither of
    them skipped: the Eckart density returned is not positive. *)
Lemma opposite_charges_density_not_positive :
  opposite_pair DensityType.Charge Sample.origin
    Sample.positive_charge Sample.negative_charge
  /\ skipped Sample.epsilon DensityType.Charge Sample.positive_charge = false
  /\ ~ 0 < rho_eck_of
             (current_eckart Sample.epsilon Sample.origin
                [Sample.positive_charge; Sample.negative_charge]
                (Sample.parameters 1 4) DensityType.Charge false true).
Proof.
  split; [exact sample_opposite_pair | split; [exact sample_not_skipped | ]].
  destruct (opposite_pair_cancels Sample.epsilon Sample.origin
              (Sample.parameters 1 4) DensityType.Charge false true
              Sample.positive_charge Sample.negative_charge
              sample_epsilon_positive sample_opposite_pair) as [Hrho _].
  rewrite Hrho. lra.
Qed.

Lemma opposite_pair_density_zero_witness :
  0 < Sample.epsilon
  /\ opposite_pair DensityType.Charge Sample.origin
       Sample.positive_charge Sample.negative_charge
  /\ rho_eck_of
       (current_eckart Sample.epsilon Sample.origin
          [Sample.positive_charge; Sample.negative_charge]
          (Sample.parameters 1 4) DensityType.Charge false true)
     = 0.
Proof.
  assert (Heps : 0 < Sample.epsilon) by (unfold Sample.epsilon; lra).
  assert (Hpair : opposite_pair DensityType.Charge Sample.origin
                    Sample.positive_charge Sample.negative_charge).
  { unfold opposite_pair. split; [ | split].
    - simpl. lra.
    - apply fourvector_eq; simpl; lra.
    - apply threevector_eq; simpl; lra. }
  split; [exact Heps | split; [exact Hpair | ]].
  apply (opposite_pair_density_zero Sample.epsilon Sample.origin
           (Sample.parameters 1 4) DensityType.Charge false true
           Sample.positive_charge Sample.negative_charge Heps Hpair).
Defined.

(** A particle at rest, exactly one cutoff radius from the field point in
    both frames: the kernel does not return weight 0. *)
Lemma boundary_particle_has_weight :
  valid_parameters (Sample.parameters 1 1)
  /\ ThreeVector.sqr Sample.boundary_offset = r_cut_sqr (Sample.parameters 1 1)
  /\ fst (unnormalized_smearing_factor Sample.boundary_offset
            Sample.momentum_at_rest 1 (Sample.parameters 1 1) false)
     <> 0.
Proof.
  split; [apply sample_parameters_valid; lra | ].
  split; [unfold ThreeVector.sqr, ThreeVector.dot, r_cut_sqr; simpl; lra | ].
  rewrite kernel_at_rest_boundary.
  - apply gaussian_factor_nonzero. simpl. lra.
  - unfold ThreeVector.sqr, ThreeVector.dot, r_cut_sqr; simpl. lra.
Qed.

Lemma kernel_keeps_boundary_witness :
  (ThreeVector.sqr Sample.boundary_offset = r_cut_sqr (Sample.parameters 1 1)
   \/ ThreeVector.sqr Sample.boundary_offset
      + ThreeVector.dot Sample.boundary_offset
          (FourVector.threevec (FourVector.scale Sample.momentum_at_rest 1))
        * ThreeVector.dot Sample.boundary_offset
            (FourVector.threevec (FourVector.scale Sample.momentum_at_rest 1))
      = r_cut_sqr (Sample.parameters 1 1))
  /\ fst (unnormalized_smearing_factor Sample.boundary_offset
            Sample.momentum_at_rest 1 (Sample.parameters 1 1) true)
     = exp (- (ThreeVector.sqr Sample.boundary_offset
               + ThreeVector.dot Sample.boundary_offset
                   (FourVector.threevec (FourVector.scale Sample.momentum_at_rest 1))
                 * ThreeVector.dot Sample.boundary_offset
                     (FourVector.threevec
                        (FourVector.scale Sample.momentum_at_rest 1)))
            * two_sig_sqr_inv (Sample.parameters 1 1))
       * FourVector.x0 (FourVector.scale Sample.momentum_at_rest 1).
Proof.
  assert (Hrest :
    ThreeVector.sqr Sample.boundary_offset
    + ThreeVector.dot Sample.boundary_offset
        (FourVector.threevec (FourVector.scale Sample.momentum_at_rest 1))
      * ThreeVector.dot Sample.boundary_offset
          (FourVector.threevec (FourVector.scale Sample.momentum_at_rest 1))
    = r_cut_sqr (Sample.parameters 1 1)).
  { unfold ThreeVector.sqr, ThreeVector.dot, r_cut_sqr; simpl. lra. }
  split; [right; exact Hrest | ].
  destruct (kernel_keeps_boundary Sample.boundary_offset Sample.momentum_at_rest 1
              (Sample.parameters 1 1) true (or_intror Hrest)) as [_ Hwithin].
  rewrite (Hwithin Hrest). reflexivity.
Defined.

Lemma kernel_weight_and_gradient_witness :
  valid_parameters (Sample.parameters 1 1)
  /\ unnormalized_smearing_factor (ThreeVector.mk 2 0 0)
       Sample.momentum_at_rest 1 (Sample.parameters 1 1) true
     = (0, ThreeVector.zero).
Proof.
  assert (Hvalid : valid_parameters (Sample.parameters 1 1))
    by (split; simpl; lra).
  split; [exact Hvalid | ].
  destruct (kernel_weight_and_gradient (ThreeVector.mk 2 0 0)
              Sample.momentum_at_rest 1 (Sample.parameters 1 1) true Hvalid)
    as [Hlab _].
  apply Hlab.
  unfold ThreeVector.sqr, ThreeVector.dot, r_cut_sqr; simpl. lra.
Defined.

Lemma current_eckart_divisions_safe_witness :
  Forall physical_momentum [Sample.positive_charge; Sample.negative_charge]
  /\ current_eckart_checked Sample.epsilon Sample.origin (Sample.parameters 1 4)
       DensityType.Charge true true
       [Sample.positive_charge; Sample.negative_charge]
     = Some (current_eckart Sample.epsilon Sample.origin
               [Sample.positive_charge; Sample.negative_charge]
               (Sample.parameters 1 4) DensityType.Charge true true).
Proof.
  assert (Hphys : Forall physical_momentum
                    [Sample.positive_charge; Sample.negative_charge])
    by (repeat constructor; unfold FourVector.sqr; simpl; lra).
  split; [exact Hphys | ].
  apply (current_eckart_divisions_safe Sample.epsilon Sample.origin
           (Sample.parameters 1 4) DensityType.Charge true true
           [Sample.positive_charge; Sample.negative_charge] Hphys).
Defined.

Lemma current_eckart_unsmeared_independent_witness :
  norm_factor_sf (Sample.parameters 1 4) = norm_factor_sf (Sample.parameters 2 8)
  /\ current_eckart Sample.epsilon Sample.origin
       [Sample.positive_charge; Sample.negative_charge]
       (Sample.parameters 1 4) DensityType.Charge false false
     = current_eckart Sample.epsilon Sample.boundary_offset
         [Sample.positive_charge; Sample.negative_charge]
         (Sample.parameters 2 8) DensityType.Charge false false.
Proof.
  split; [reflexivity | ].
  apply (current_eckart_unsmeared_independent Sample.epsilon Sample.origin
           Sample.boundary_offset (Sample.parameters 1 4) (Sample.parameters 2 8)
           DensityType.Charge [Sample.positive_charge; Sample.negative_charge]).
  reflexivity.
Defined.

(** ** update_lattice *)

(** C8: with a null primary lattice, or a lattice whose update tag differs
    from the requested one, [update_lattice] returns without a fault and
    leaves the primary lattice, the two auxiliary four-current lattices and
    the four-gradient lattice as they were, whatever the other arguments
    and whatever the collaborators do. *)
Theorem update_lattice_idle
    (LatticeUpdate : Type)
    (LatticeUpdate_eq_dec : forall x y : LatticeUpdate, {x = y} + {x <> y})
    (DensityOnLattice : Type)
    (jmu_net : DensityOnLattice -> FourVector.t)
    (overwrite_djmu_dxnu :
       DensityOnLattice -> FourVector.t -> FourVector.t -> FourVector.t ->
       FourVector.t -> DensityOnLattice)
    (update_lattice_nodes :
       RectangularLattice LatticeUpdate DensityOnLattice -> LatticeUpdate ->
       DensityType.t -> DensityParameters -> list (list ParticleData) -> bool ->
       RectangularLattice LatticeUpdate DensityOnLattice)
    (compute_four_gradient_lattice :
       RectangularLattice LatticeUpdate FourVector.t ->
       RectangularLattice LatticeUpdate FourVector.t -> R ->
       RectangularLattice LatticeUpdate (list FourVector.t) ->
       RectangularLattice LatticeUpdate (list FourVector.t))
    (st : Lattices LatticeUpdate DensityOnLattice) (update : LatticeUpdate)
    (dens_type : DensityType.t) (par : DensityParameters)
    (ensembles : list (list ParticleData)) (time_step : R)
    (compute_gradient : bool) :
  lat _ _ st = None
  \/ (exists l, lat _ _ st = Some l /\ when_update _ _ l <> update) ->
  update_lattice LatticeUpdate LatticeUpdate_eq_dec DensityOnLattice jmu_net
    overwrite_djmu_dxnu update_lattice_nodes compute_four_gradient_lattice
    st update dens_type par ensembles time_step compute_gradient
  = Some st.
Proof.
  intros [Hnull | (l & Hlat & Htag)]; unfold update_lattice; rewrite Hnull || rewrite Hlat.
  - reflexivity.
  - destruct (LatticeUpdate_eq_dec (when_update _ _ l) update);
      [contradiction | reflexivity].
Qed.

Lemma update_lattice_idle_witness :
  lat _ _ Sample.no_lattice = None
  /\ update_lattice bool Bool.bool_dec FourVector.t (fun node => node)
       (fun node _ _ _ _ => node) (fun l _ _ _ _ _ => l) (fun _ _ _ g => g)
       Sample.no_lattice true DensityType.Baryon (Sample.parameters 1 4)
       [] 1 true
     = Some Sample.no_lattice.
Proof.
  split; [reflexivity | ].
  apply (update_lattice_idle bool Bool.bool_dec FourVector.t (fun node => node)
           (fun node _ _ _ _ => node) (fun l _ _ _ _ _ => l) (fun _ _ _ g => g)
           Sample.no_lattice true DensityType.Baryon (Sample.parameters 1 4)
           [] 1 true).
  left. reflexivity.
Defined.

(** ** operator<< for DensityType *)

(** The six values with a case of their own: the label is appended to a
    stream in good state, which stays good. *)
Lemma print_DensityType_labelled (os : ostream) :
  failbit os = false ->
  print_DensityType os DensityType.Hadron
  = {| written := (written os ++ "hadron density")%string; failbit := false |}
  /\ print_DensityType os DensityType.Baryon
     = {| written := (written os ++ "baryon density")%string; failbit := false |}
  /\ print_DensityType os DensityType.BaryonicIsospin
     = {| written := (written os ++ "baryonic isospin density")%string;
          failbit := false |}
  /\ print_DensityType os DensityType.Pion
     = {| written := (written os ++ "pion density")%string; failbit := false |}
  /\ print_DensityType os DensityType.Isospin3_tot
     = {| written := (written os ++ "total isospin3 density")%string;
          failbit := false |}
  /\ print_DensityType os DensityType.None
     = {| written := (written os ++ "none")%string; failbit := false |}.
Proof.
  intro H. unfold print_DensityType, put. rewrite H. repeat split.
Qed.

(** C9, on the code: Charge and Strangeness have no case of their own in
    the switch of [operator<<]; streaming either of them writes nothing and
    sets the failbit, so the stream is no longer good. *)
Theorem print_DensityType_charge_strangeness (os : ostream) :
  print_DensityType os DensityType.Charge = setstate_failbit os
  /\ print_DensityType os DensityType.Strangeness = setstate_failbit os
  /\ written (print_DensityType os DensityType.Charge) = written os
  /\ good (print_DensityType os DensityType.Charge) = false
  /\ written (print_DensityType os DensityType.Strangeness) = written os
  /\ good (print_DensityType os DensityType.Strangeness) = false.
Proof.
  repeat split.
Qed.

(** * Further properties *)

(** ** The loop as a sum of increments *)

Lemma length_four {A : Type} (l : list A) :
  List.length l = 4%nat -> exists a b c d, l = [a; b; c; d].
Proof.
  destruct l as [ | a [ | b [ | c [ | d [ | e l]]]]]; simpl; try discriminate.
  intros _. exists a, b, c, d. reflexivity.
Qed.

Lemma accumulator_eq (acc acc' : Accumulator) :
  jmu_pos acc = jmu_pos acc' -> jmu_neg acc = jmu_neg acc' ->
  djmu_dx acc = djmu_dx acc' -> acc = acc'.
Proof.
  destruct acc, acc'; simpl; intros; subst; reflexivity.
Qed.

Lemma increment_eq (i j : Increment) :
  to_pos i = to_pos j -> to_neg i = to_neg j -> from_time i = from_time j ->
  to_x i = to_x j -> to_y i = to_y j -> to_z i = to_z j -> i = j.
Proof.
  destruct i, j; simpl; intros; subst; reflexivity.
Qed.

Ltac fourvector_field := apply fourvector_eq; simpl; unfold Rdiv; ring.

Ltac buckets_ring :=
  repeat (apply (f_equal2 (@cons FourVector.t)); [fourvector_field | ]);
  try reflexivity.

Lemma apply_zero_increment (acc : Accumulator) :
  List.length (djmu_dx acc) = 4%nat -> apply_increment acc zero_increment = acc.
Proof.
  intro H. destruct (length_four _ H) as (d0 & d1 & d2 & d3 & Hd).
  apply accumulator_eq; unfold apply_increment; cbn [jmu_pos jmu_neg djmu_dx].
  - apply fourvector_add_zero_r.
  - apply fourvector_add_zero_r.
  - rewrite Hd. buckets_ring.
Qed.

Lemma apply_increment_length (acc : Accumulator) (i : Increment) :
  List.length (djmu_dx acc) = 4%nat ->
  List.length (djmu_dx (apply_increment acc i)) = 4%nat.
Proof.
  intro H. destruct (length_four _ H) as (d0 & d1 & d2 & d3 & Hd).
  unfold apply_increment; simpl. rewrite Hd. reflexivity.
Qed.

Lemma apply_add_increment (acc : Accumulator) (i j : Increment) :
  List.length (djmu_dx acc) = 4%nat ->
  apply_increment (apply_increment acc i) j = apply_increment acc (add_increment i j).
Proof.
  intro H. destruct (length_four _ H) as (d0 & d1 & d2 & d3 & Hd).
  apply accumulator_eq; unfold apply_increment; cbn [jmu_pos jmu_neg djmu_dx].
  - apply fourvector_add_assoc.
  - apply fourvector_add_assoc.
  - rewrite Hd. buckets_ring.
Qed.

Lemma gradient_loop_buckets
    (tmp : FourVector.t) (grad : ThreeVector.t) (dens_factor : R)
    (d0 d1 d2 d3 : FourVector.t) :
  fold_left (gradient_step tmp grad dens_factor) [1%nat; 2%nat; 3%nat]
    [d0; d1; d2; d3]
  = [FourVector.sub
       (FourVector.sub
          (FourVector.sub d0
             (FourVector.div
                (FourVector.scale (FourVector.scale tmp (ThreeVector.x1 grad))
                   (FourVector.x1 tmp))
                dens_factor))
          (FourVector.div
             (FourVector.scale (FourVector.scale tmp (ThreeVector.x2 grad))
                (FourVector.x2 tmp))
             dens_factor))
       (FourVector.div
          (FourVector.scale (FourVector.scale tmp (ThreeVector.x3 grad))
             (FourVector.x3 tmp))
          dens_factor);
     FourVector.add d1 (FourVector.scale tmp (ThreeVector.x1 grad));
     FourVector.add d2 (FourVector.scale tmp (ThreeVector.x2 grad));
     FourVector.add d3 (FourVector.scale tmp (ThreeVector.x3 grad))].
Proof. reflexivity. Qed.

Section Increments.

Variable really_small : R.
Variable r : ThreeVector.t.
Variable par : DensityParameters.
Variable dens_type : DensityType.t.
Variables compute_gradient smearing : bool.

Local Abbreviation body :=
  (eckart_body really_small r par dens_type compute_gradient smearing).
Local Abbreviation loop :=
  (eckart_loop really_small r par dens_type compute_gradient smearing).
Local Abbreviation increment :=
  (particle_increment really_small r par dens_type compute_gradient smearing).
Local Abbreviation skip := (skipped really_small dens_type).

Lemma eckart_body_skipped (acc : Accumulator) (p : ParticleData) :
  skip p = true -> body acc p = acc.
Proof.
  unfold eckart_body, skipped.
  destruct (Rlt_dec (Rabs (density_factor (type p) dens_type)) really_small);
    [reflexivity | ].
  destruct (Rlt_dec (FourVector.abs (momentum p)) really_small);
    [reflexivity | discriminate].
Qed.

Lemma eckart_body_increment (acc : Accumulator) (p : ParticleData) :
  List.length (djmu_dx acc) = 4%nat ->
  body acc p = apply_increment acc (increment p).
Proof.
  intro H. unfold particle_increment.
  destruct (skip p) eqn:Hskip.
  - rewrite (eckart_body_skipped acc p Hskip), apply_zero_increment by exact H.
    reflexivity.
  - destruct (length_four _ H) as (d0 & d1 & d2 & d3 & Hd).
    revert Hskip.
    unfold eckart_body, skipped, positive_weight, contribution, kernel_weight,
      time_term, spatial_term, tmp_of, kernel_gradient.
    destruct (Rlt_dec (Rabs (density_factor (type p) dens_type)) really_small);
      [discriminate | ].
    destruct (Rlt_dec (FourVector.abs (momentum p)) really_small);
      [discriminate | ].
    intros _. cbv zeta.
    generalize (unnormalized_smearing_factor
                  (ThreeVector.sub (FourVector.threevec (position p)) r)
                  (momentum p) (1 / FourVector.abs (momentum p)) par
                  compute_gradient).
    intros [sf grad].
    destruct smearing, (Rgt_dec (density_factor (type p) dens_type) 0),
      compute_gradient;
      apply accumulator_eq; unfold apply_increment, add_jmu_pos, add_jmu_neg,
        set_djmu_dx; cbn [jmu_pos jmu_neg djmu_dx to_pos to_neg from_time to_x
                            to_y to_z fst snd];
      rewrite ?Hd, ?gradient_loop_buckets, ?fourvector_add_zero_r;
      try reflexivity; buckets_ring.
Qed.

Lemma eckart_body_length (acc : Accumulator) (p : ParticleData) :
  List.length (djmu_dx acc) = 4%nat -> List.length (djmu_dx (body acc p)) = 4%nat.
Proof.
  intro H. rewrite eckart_body_increment by exact H.
  apply apply_increment_length. exact H.
Qed.

Lemma eckart_loop_increments (plist : list ParticleData) :
  forall acc : Accumulator,
    List.length (djmu_dx acc) = 4%nat ->
    loop plist acc = apply_increment acc (sum_increments (map increment plist)).
Proof.
  unfold eckart_loop.
  induction plist as [ | p plist IH]; intros acc H; cbn [fold_left map sum_increments
                                                          fold_right].
  - symmetry. apply apply_zero_increment. exact H.
  - rewrite IH by (apply eckart_body_length; exact H).
    rewrite eckart_body_increment by exact H.
    apply apply_add_increment. exact H.
Qed.

End Increments.

(** ** The result in terms of the total increment *)

Lemma current_eckart_of_increments
    (really_small : R) (r : ThreeVector.t) (par : DensityParameters)
    (dens_type : DensityType.t) (compute_gradient smearing : bool)
    (plist : list ParticleData) :
  let total :=
    sum_increments
      (map (particle_increment really_small r par dens_type compute_gradient smearing)
         plist) in
  current_eckart really_small r plist par dens_type compute_gradient smearing
  = ((FourVector.abs (to_pos total) - FourVector.abs (to_neg total))
     * norm_factor_sf par,
     FourVector.scale (FourVector.add (to_pos total) (to_neg total))
       (norm_factor_sf par),
     (if compute_gradient
      then ThreeVector.scale
             (ThreeVector.mk (FourVector.x0 (to_x total)) (FourVector.x0 (to_y total))
                (FourVector.x0 (to_z total)))
             (norm_factor_sf par)
      else ThreeVector.zero),
     (if compute_gradient
      then ThreeVector.scale
             (ThreeVector.lscale (-1) (FourVector.threevec (from_time total)))
             (norm_factor_sf par)
      else ThreeVector.zero),
     (if compute_gradient
      then ThreeVector.scale
             (ThreeVector.mk
                (FourVector.x3 (to_y total) - FourVector.x2 (to_z total))
                (FourVector.x1 (to_z total) - FourVector.x3 (to_x total))
                (FourVector.x2 (to_x total) - FourVector.x1 (to_y total)))
             (norm_factor_sf par)
      else ThreeVector.zero)).
Proof.
  intro total. unfold current_eckart, current_eckart_impl.
  rewrite eckart_loop_increments by reflexivity. fold total.
  unfold eckart_reduce, apply_increment.
  cbn [jmu_pos jmu_neg djmu_dx initial_accumulator nth].
  rewrite !fourvector_add_zero_l.
  destruct compute_gradient; [ | reflexivity].
  repeat (apply f_equal2); try reflexivity; threevector_ring.
Qed.

Lemma sum_increments_app (l1 l2 : list Increment) :
  sum_increments (l1 ++ l2) = add_increment (sum_increments l1) (sum_increments l2).
Proof.
  induction l1 as [ | i l1 IH]; cbn [app sum_increments fold_right].
  - apply increment_eq; simpl; symmetry; apply fourvector_add_zero_l.
  - fold (sum_increments (l1 ++ l2)). fold (sum_increments l1). rewrite IH.
    apply increment_eq; simpl; symmetry; apply fourvector_add_assoc.
Qed.

Lemma add_increment_swap (i j k : Increment) :
  add_increment i (add_increment j k) = add_increment j (add_increment i k).
Proof.
  apply increment_eq; simpl; fourvector_ring.
Qed.

Lemma sum_increments_permutation (l1 l2 : list Increment) :
  Permutation l1 l2 -> sum_increments l1 = sum_increments l2.
Proof.
  induction 1 as [ | i l1 l2 _ IH | i j l | l1 l2 l3 _ IH1 _ IH2];
    cbn [sum_increments fold_right].
  - reflexivity.
  - fold (sum_increments l1). fold (sum_increments l2). rewrite IH. reflexivity.
  - apply add_increment_swap.
  - exact (eq_trans IH1 IH2).
Qed.

(** ** Particles that are passed over *)

Lemma eckart_loop_filter_skipped
    (really_small : R) (r : ThreeVector.t) (par : DensityParameters)
    (dens_type : DensityType.t) (compute_gradient smearing : bool)
    (plist : list ParticleData) :
  forall acc : Accumulator,
    eckart_loop really_small r par dens_type compute_gradient smearing
      (filter (fun p => negb (skipped really_small dens_type p)) plist) acc
    = eckart_loop really_small r par dens_type compute_gradient smearing plist acc.
Proof.
  unfold eckart_loop.
  induction plist as [ | p plist IH]; intro acc; cbn [filter fold_left].
  - reflexivity.
  - destruct (skipped really_small dens_type p) eqn:Hskip; cbn [negb fold_left].
    + rewrite eckart_body_skipped by exact Hskip. apply IH.
    + apply IH.
Qed.

(** X1: the particles that the loop passes over, those whose weight or
    whose invariant mass is below the epsilon in magnitude, have no effect
    at all: removing them from the list leaves the whole result tuple of
    [current_eckart] as it is. *)
Theorem current_eckart_ignores_skipped
    (really_small : R) (r : ThreeVector.t) (par : DensityParameters)
    (dens_type : DensityType.t) (compute_gradient smearing : bool)
    (plist : list ParticleData) :
  current_eckart really_small r
    (filter (fun p => negb (skipped really_small dens_type p)) plist)
    par dens_type compute_gradient smearing
  = current_eckart really_small r plist par dens_type compute_gradient smearing.
Proof.
  unfold current_eckart, current_eckart_impl.
  rewrite eckart_loop_filter_skipped. reflexivity.
Qed.

Lemma current_eckart_nil
    (really_small : R) (r : ThreeVector.t) (par : DensityParameters)
    (dens_type : DensityType.t) (compute_gradient smearing : bool) :
  current_eckart really_small r [] par dens_type compute_gradient smearing
  = (0, FourVector.zero, ThreeVector.zero, ThreeVector.zero, ThreeVector.zero).
Proof.
  rewrite current_eckart_of_increments. cbn [map sum_increments fold_right
    zero_increment to_pos to_neg from_time to_x to_y to_z].
  rewrite fourvector_abs_zero.
  destruct compute_gradient;
    repeat (apply f_equal2);
    try ring; try fourvector_ring; try threevector_ring; reflexivity.
Qed.

Lemma eckart_all_skipped_zero
    (really_small : R) (r : ThreeVector.t) (par : DensityParameters)
    (dens_type : DensityType.t) (compute_gradient smearing : bool)
    (plist : list ParticleData) :
  Forall (fun p => skipped really_small dens_type p = true) plist ->
  current_eckart really_small r plist par dens_type compute_gradient smearing
  = (0, FourVector.zero, ThreeVector.zero, ThreeVector.zero, ThreeVector.zero).
Proof.
  intro Hall. rewrite <- current_eckart_nil
    with (really_small := really_small) (r := r) (par := par)
         (dens_type := dens_type) (compute_gradient := compute_gradient)
         (smearing := smearing).
  unfold current_eckart, current_eckart_impl.
  rewrite <- eckart_loop_filter_skipped.
  replace (filter (fun p => negb (skipped really_small dens_type p)) plist)
    with (@nil ParticleData); [reflexivity | ].
  induction Hall as [ | p plist Hp _ IH]; cbn [filter]; [reflexivity | ].
  rewrite Hp. exact IH.
Qed.

(** X2: when every particle of the list is passed over, the result is the
    all-zero tuple of the empty list. *)
Theorem current_eckart_all_skipped
    (really_small : R) (r : ThreeVector.t) (par : DensityParameters)
    (dens_type : DensityType.t) (compute_gradient smearing : bool)
    (plist : list ParticleData) :
  Forall (fun p => skipped really_small dens_type p = true) plist ->
  current_eckart really_small r plist par dens_type compute_gradient smearing
  = (0, FourVector.zero, ThreeVector.zero, ThreeVector.zero, ThreeVector.zero).
Proof.
  apply eckart_all_skipped_zero.
Qed.

Lemma zero_weight_skipped (really_small : R) (dens_type : DensityType.t)
    (p : ParticleData) :
  0 < really_small -> density_factor (type p) dens_type = 0 ->
  skipped really_small dens_type p = true.
Proof.
  intros Heps H0. unfold skipped. rewrite H0, Rabs_R0.
  destruct (Rlt_dec 0 really_small); [reflexivity | contradiction].
Qed.

(** X3: under the tag None, which falls into the default branch of
    [density_factor], every particle has weight 0 and is passed over when
    the epsilon is positive: [current_eckart] returns the all-zero tuple for
    every particle list. *)
Theorem current_eckart_none_is_zero
    (really_small : R) (r : ThreeVector.t) (par : DensityParameters)
    (compute_gradient smearing : bool) (plist : list ParticleData) :
  0 < really_small ->
  current_eckart really_small r plist par DensityType.None compute_gradient smearing
  = (0, FourVector.zero, ThreeVector.zero, ThreeVector.zero, ThreeVector.zero).
Proof.
  intro Heps. apply eckart_all_skipped_zero.
  apply Forall_forall. intros p _.
  apply zero_weight_skipped; [exact Heps | reflexivity].
Qed.

(** ** Order and concatenation *)

(** X4: the result of [current_eckart] does not depend on the order in
    which the particles are listed. *)
Theorem current_eckart_permutation
    (really_small : R) (r : ThreeVector.t) (par : DensityParameters)
    (dens_type : DensityType.t) (compute_gradient smearing : bool)
    (plist plist' : list ParticleData) :
  Permutation plist plist' ->
  current_eckart really_small r plist par dens_type compute_gradient smearing
  = current_eckart really_small r plist' par dens_type compute_gradient smearing.
Proof.
  intro Hperm. rewrite !current_eckart_of_increments. cbv zeta.
  rewrite (sum_increments_permutation _ _
             (Permutation_map
                (particle_increment really_small r par dens_type compute_gradient
                   smearing) Hperm)).
  reflexivity.
Qed.

(** X5: the four-current and the three derivative outputs are additive
    over ensembles: for the concatenation of two particle lists each of them
    is the sum of what the two lists give separately. *)
Theorem current_eckart_app
    (really_small : R) (r : ThreeVector.t) (par : DensityParameters)
    (dens_type : DensityType.t) (compute_gradient smearing : bool)
    (l1 l2 : list ParticleData) :
  let res := fun l =>
    current_eckart really_small r l par dens_type compute_gradient smearing in
  jmu_of (res (l1 ++ l2)) = FourVector.add (jmu_of (res l1)) (jmu_of (res l2))
  /\ rho_grad_of (res (l1 ++ l2))
     = ThreeVector.add (rho_grad_of (res l1)) (rho_grad_of (res l2))
  /\ dj_dt_of (res (l1 ++ l2))
     = ThreeVector.add (dj_dt_of (res l1)) (dj_dt_of (res l2))
  /\ j_rot_of (res (l1 ++ l2))
     = ThreeVector.add (j_rot_of (res l1)) (j_rot_of (res l2)).
Proof.
  intro res. subst res. cbv beta.
  rewrite !current_eckart_of_increments. cbv zeta.
  rewrite map_app, sum_increments_app.
  unfold jmu_of, rho_grad_of, dj_dt_of, j_rot_of.
  destruct compute_gradient; repeat split;
    try fourvector_ring; threevector_ring.
Qed.

(** ** Densities and gradients as weighted sums *)

Lemma sum_increments_cons (i : Increment) (l : list Increment) :
  sum_increments (i :: l) = add_increment i (sum_increments l).
Proof. reflexivity. Qed.

Lemma sum_threevectors_cons (a : ThreeVector.t) (l : list ThreeVector.t) :
  sum_threevectors (a :: l) = ThreeVector.add a (sum_threevectors l).
Proof. reflexivity. Qed.

Lemma not_skipped_energy (really_small : R) (dens_type : DensityType.t)
    (p : ParticleData) :
  0 < really_small -> skipped really_small dens_type p = false ->
  FourVector.x0 (momentum p) <> 0.
Proof.
  intros Heps. unfold skipped.
  destruct (Rlt_dec (Rabs (density_factor (type p) dens_type)) really_small);
    [discriminate | ].
  destruct (Rlt_dec (FourVector.abs (momentum p)) really_small) as [ | Hm];
    [discriminate | ].
  intros _ E0. apply Hm.
  unfold FourVector.abs. rewrite sqrt_neg_0; [exact Heps | ].
  unfold FourVector.sqr. rewrite E0. nra.
Qed.

Lemma tmp_time_component (really_small : R) (dens_type : DensityType.t)
    (p : ParticleData) :
  0 < really_small -> skipped really_small dens_type p = false ->
  FourVector.x0 (tmp_of dens_type p) = density_factor (type p) dens_type.
Proof.
  intros Heps Hskip. unfold tmp_of; simpl. field.
  exact (not_skipped_energy really_small dens_type p Heps Hskip).
Qed.

Lemma contribution_time_component
    (really_small : R) (r : ThreeVector.t) (par : DensityParameters)
    (dens_type : DensityType.t) (compute_gradient smearing : bool)
    (p : ParticleData) :
  0 < really_small -> skipped really_small dens_type p = false ->
  FourVector.x0 (contribution r par dens_type compute_gradient smearing p)
  = density_factor (type p) dens_type
    * applied_weight r par compute_gradient smearing p.
Proof.
  intros Heps Hskip.
  pose proof (tmp_time_component really_small dens_type p Heps Hskip) as Htmp.
  unfold contribution, applied_weight. fold (tmp_of dens_type p). cbv zeta.
  destruct smearing.
  - cbn [FourVector.scale FourVector.x0]. rewrite Htmp. reflexivity.
  - rewrite Htmp. ring.
Qed.

(** X6: for a positive epsilon the time component of the four-current
    returned is the normalisation factor times the sum, over the particles
    that are not passed over, of the weight of the particle times the weight
    of the kernel (times 1 without smearing): the energy cancels out of
    [mom * (dens_factor / mom.x0())]. *)
Theorem current_eckart_time_component
    (really_small : R) (r : ThreeVector.t) (par : DensityParameters)
    (dens_type : DensityType.t) (compute_gradient smearing : bool)
    (plist : list ParticleData) :
  0 < really_small ->
  FourVector.x0
    (jmu_of (current_eckart really_small r plist par dens_type compute_gradient
               smearing))
  = fold_right Rplus 0
      (map (fun p => density_factor (type p) dens_type
                     * applied_weight r par compute_gradient smearing p)
         (filter (fun p => negb (skipped really_small dens_type p)) plist))
    * norm_factor_sf par.
Proof.
  intro Heps. rewrite current_eckart_of_increments. cbv zeta.
  unfold jmu_of. cbn [FourVector.x0 FourVector.scale FourVector.add].
  f_equal.
  induction plist as [ | p plist IH];
    cbn [map filter sum_increments fold_right add_increment to_pos to_neg].
  - simpl. ring.
  - fold (sum_increments
            (map (particle_increment really_small r par dens_type compute_gradient
                    smearing) plist)).
    cbn [FourVector.x0 FourVector.add].
    unfold particle_increment at 1 3.
    destruct (skipped really_small dens_type p) eqn:Hskip;
      cbn [negb map fold_right to_pos to_neg zero_increment].
    + rewrite <- IH. simpl. ring.
    + rewrite <- IH.
      rewrite <- (contribution_time_component really_small r par dens_type
                    compute_gradient smearing p Heps Hskip).
      destruct (positive_weight dens_type p); simpl; ring.
Qed.

(** X7: for a positive epsilon the gradient of the density returned, when
    gradients are requested, is the normalisation factor times the sum, over
    the particles that are not passed over, of the weight of the particle
    times the gradient of its kernel. *)
Theorem current_eckart_density_gradient
    (really_small : R) (r : ThreeVector.t) (par : DensityParameters)
    (dens_type : DensityType.t) (smearing : bool) (plist : list ParticleData) :
  0 < really_small ->
  rho_grad_of (current_eckart really_small r plist par dens_type true smearing)
  = ThreeVector.scale
      (sum_threevectors
         (map (fun p => ThreeVector.lscale (density_factor (type p) dens_type)
                          (kernel_gradient r par true p))
            (filter (fun p => negb (skipped really_small dens_type p)) plist)))
      (norm_factor_sf par).
Proof.
  intro Heps. rewrite current_eckart_of_increments. cbv zeta.
  unfold rho_grad_of. f_equal.
  induction plist as [ | p plist IH]; cbn [map filter]; [reflexivity | ].
  rewrite sum_increments_cons. cbn [add_increment to_x to_y to_z].
  unfold particle_increment at 1 3 5.
  destruct (skipped really_small dens_type p) eqn:Hskip;
    cbn [negb map to_x to_y to_z zero_increment].
  - rewrite <- IH. threevector_ring.
  - rewrite sum_threevectors_cons, <- IH.
    pose proof (tmp_time_component really_small dens_type p Heps Hskip) as Htmp.
    unfold spatial_term.
    apply threevector_eq;
      cbn [ThreeVector.x1 ThreeVector.x2 ThreeVector.x3 ThreeVector.add
           ThreeVector.lscale FourVector.x0 FourVector.add FourVector.scale
           ThreeVector.get Nat.sub];
      rewrite Htmp; reflexivity.
Qed.

(** ** The kernel *)

Lemma exp_monotone (x y : R) : x <= y -> exp x <= exp y.
Proof.
  intros [Hlt | Heq].
  - left. apply exp_increasing. exact Hlt.
  - rewrite Heq. right. reflexivity.
Qed.

Lemma threevector_sqr_nonneg (r : ThreeVector.t) : 0 <= ThreeVector.sqr r.
Proof.
  unfold ThreeVector.sqr, ThreeVector.dot. nra.
Qed.

Lemma two_sig_sqr_inv_positive (par : DensityParameters) :
  0 < sig par -> 0 < two_sig_sqr_inv par.
Proof.
  intro H. unfold two_sig_sqr_inv.
  apply Rdiv_lt_0_compat; [lra | nra].
Qed.

Lemma kernel_value_bounds (r_sqr u_r_scalar u_t : R) (par : DensityParameters) :
  0 < sig par -> 0 <= r_sqr -> 0 <= u_t ->
  0 <= kernel_value r_sqr u_r_scalar u_t par <= u_t.
Proof.
  intros Hsig Hr Hu. unfold kernel_value.
  destruct (Rgt_dec r_sqr (r_cut_sqr par)); [lra | ].
  destruct (Rgt_dec (r_sqr + u_r_scalar * u_r_scalar) (r_cut_sqr par)); [lra | ].
  pose proof (two_sig_sqr_inv_positive par Hsig) as Hinv.
  pose proof (exp_pos (- (r_sqr + u_r_scalar * u_r_scalar) * two_sig_sqr_inv par))
    as Hpos.
  assert (Hle : exp (- (r_sqr + u_r_scalar * u_r_scalar) * two_sig_sqr_inv par) <= 1).
  { rewrite <- exp_0. apply exp_monotone. nra. }
  split; nra.
Qed.

(** X8: for a positive width and a four-velocity with non-negative time
    component u_t, the weight of the kernel lies between 0 and u_t,
    whatever the offset, the cutoff and the gradient flag. *)
Theorem kernel_weight_bounds
    (r : ThreeVector.t) (p : FourVector.t) (m_inv : R)
    (par : DensityParameters) (compute_gradient : bool) :
  0 < sig par -> 0 <= FourVector.x0 p * m_inv ->
  0 <= fst (unnormalized_smearing_factor r p m_inv par compute_gradient)
    <= FourVector.x0 p * m_inv.
Proof.
  intros Hsig Hu. rewrite kernel_weight_value.
  apply kernel_value_bounds; [exact Hsig | apply threevector_sqr_nonneg | exact Hu].
Qed.

(** X9: at the place of the particle itself, offset zero, the kernel
    returns the weight u_t = p_0 * m_inv and the zero gradient, for every
    momentum, every parameter set and both values of the gradient flag. *)
Theorem kernel_at_zero_offset
    (p : FourVector.t) (m_inv : R) (par : DensityParameters)
    (compute_gradient : bool) :
  unnormalized_smearing_factor ThreeVector.zero p m_inv par compute_gradient
  = (FourVector.x0 p * m_inv, ThreeVector.zero).
Proof.
  assert (Hcut : 0 <= r_cut_sqr par) by (unfold r_cut_sqr; nra).
  assert (Hrest :
    ThreeVector.sqr ThreeVector.zero
    + ThreeVector.dot ThreeVector.zero
        (FourVector.threevec (FourVector.scale p m_inv))
      * ThreeVector.dot ThreeVector.zero
          (FourVector.threevec (FourVector.scale p m_inv)) = 0).
  { unfold ThreeVector.sqr, ThreeVector.dot; simpl. ring. }
  rewrite kernel_within_cutoff by lra.
  rewrite Hrest.
  replace (- 0 * two_sig_sqr_inv par) with 0 by ring. rewrite exp_0.
  f_equal.
  - simpl. ring.
  - destruct compute_gradient; [ | reflexivity].
    unfold ThreeVector.dot. threevector_ring.
Qed.

(** X10: the kernel is even in the offset and its gradient is odd:
    mirroring the offset keeps the weight and flips the gradient. *)
Theorem kernel_parity
    (r : ThreeVector.t) (p : FourVector.t) (m_inv : R)
    (par : DensityParameters) (compute_gradient : bool) :
  fst (unnormalized_smearing_factor (ThreeVector.lscale (-1) r) p m_inv par
         compute_gradient)
  = fst (unnormalized_smearing_factor r p m_inv par compute_gradient)
  /\ snd (unnormalized_smearing_factor (ThreeVector.lscale (-1) r) p m_inv par
            compute_gradient)
     = ThreeVector.lscale (-1)
         (snd (unnormalized_smearing_factor r p m_inv par compute_gradient)).
Proof.
  assert (Hsqr : ThreeVector.sqr (ThreeVector.lscale (-1) r) = ThreeVector.sqr r).
  { unfold ThreeVector.sqr, ThreeVector.dot; simpl. ring. }
  assert (Hdot : forall u,
    ThreeVector.dot (ThreeVector.lscale (-1) r) u = - ThreeVector.dot r u).
  { intro u. unfold ThreeVector.dot; simpl. ring. }
  unfold unnormalized_smearing_factor. cbv zeta.
  rewrite Hsqr, !Hdot, Rmult_opp_opp.
  destruct (Rgt_dec (ThreeVector.sqr r) (r_cut_sqr par)).
  { split; [reflexivity | threevector_ring]. }
  destruct (Rgt_dec _ (r_cut_sqr par)).
  { split; [reflexivity | threevector_ring]. }
  split; [reflexivity | ].
  destruct compute_gradient; cbn [snd]; threevector_ring.
Qed.

(** X11: for a positive width and u_t >= 0 the weight does not grow with
    the rest-frame distance r.r + (r.u)^2: of two offsets for the same
    particle, the one farther away in the rest frame has the smaller or
    equal weight, the cutoff included. *)
Theorem kernel_weight_decreasing
    (r1 r2 : ThreeVector.t) (p : FourVector.t) (m_inv : R)
    (par : DensityParameters) (compute_gradient : bool) :
  let u := FourVector.threevec (FourVector.scale p m_inv) in
  0 < sig par -> 0 <= FourVector.x0 p * m_inv ->
  ThreeVector.sqr r1 + ThreeVector.dot r1 u * ThreeVector.dot r1 u
  <= ThreeVector.sqr r2 + ThreeVector.dot r2 u * ThreeVector.dot r2 u ->
  fst (unnormalized_smearing_factor r2 p m_inv par compute_gradient)
  <= fst (unnormalized_smearing_factor r1 p m_inv par compute_gradient).
Proof.
  intros u Hsig Hu Hle.
  pose proof (kernel_value_bounds (ThreeVector.sqr r1) (ThreeVector.dot r1 u)
                (FourVector.x0 p * m_inv) par Hsig (threevector_sqr_nonneg r1) Hu)
    as [Hnonneg _].
  rewrite !kernel_weight_value. fold u. revert Hnonneg. unfold kernel_value.
  pose proof (rest_frame_distance_ge (ThreeVector.sqr r1) (ThreeVector.dot r1 u)).
  pose proof (rest_frame_distance_ge (ThreeVector.sqr r2) (ThreeVector.dot r2 u)).
  destruct (Rgt_dec (ThreeVector.sqr r2) (r_cut_sqr par)); [tauto | ].
  destruct (Rgt_dec (ThreeVector.sqr r2 + ThreeVector.dot r2 u * ThreeVector.dot r2 u)
              (r_cut_sqr par)); [tauto | ].
  destruct (Rgt_dec (ThreeVector.sqr r1) (r_cut_sqr par)); [lra | ].
  destruct (Rgt_dec (ThreeVector.sqr r1 + ThreeVector.dot r1 u * ThreeVector.dot r1 u)
              (r_cut_sqr par)); [lra | ].
  intros _. apply Rmult_le_compat_r; [exact Hu | ].
  apply exp_monotone.
  pose proof (two_sig_sqr_inv_positive par Hsig). nra.
Qed.

(** ** One particle, and weights of one sign *)

Lemma fourvector_abs_scale (v : FourVector.t) (k : R) :
  FourVector.abs (FourVector.scale v k) = Rabs k * FourVector.abs v.
Proof.
  unfold FourVector.abs.
  replace (FourVector.sqr (FourVector.scale v k)) with (Rsqr k * FourVector.sqr v)
    by (unfold FourVector.sqr, Rsqr; simpl; ring).
  destruct (Rle_lt_dec 0 (FourVector.sqr v)) as [Hpos | Hneg].
  - rewrite sqrt_mult_alt by apply Rle_0_sqr.
    rewrite sqrt_Rsqr_abs. reflexivity.
  - rewrite (sqrt_neg_0 (FourVector.sqr v)) by lra.
    rewrite sqrt_neg_0; [ring | ].
    pose proof (Rle_0_sqr k). nra.
Qed.

Lemma contribution_as_scale
    (r : ThreeVector.t) (par : DensityParameters) (dens_type : DensityType.t)
    (compute_gradient smearing : bool) (p : ParticleData) :
  contribution r par dens_type compute_gradient smearing p
  = FourVector.scale (momentum p)
      (density_factor (type p) dens_type / FourVector.x0 (momentum p)
       * applied_weight r par compute_gradient smearing p).
Proof.
  unfold contribution, applied_weight. destruct smearing; fourvector_field.
Qed.

Lemma not_skipped_mass (really_small : R) (dens_type : DensityType.t)
    (p : ParticleData) :
  0 < really_small -> skipped really_small dens_type p = false ->
  0 < FourVector.abs (momentum p).
Proof.
  intros Heps. unfold skipped.
  destruct (Rlt_dec (Rabs (density_factor (type p) dens_type)) really_small);
    [discriminate | ].
  destruct (Rlt_dec (FourVector.abs (momentum p)) really_small);
    [discriminate | lra].
Qed.

Lemma not_skipped_weight (really_small : R) (dens_type : DensityType.t)
    (p : ParticleData) :
  0 < really_small -> skipped really_small dens_type p = false ->
  density_factor (type p) dens_type <> 0.
Proof.
  intros Heps Hskip H0.
  rewrite (zero_weight_skipped really_small dens_type p Heps H0) in Hskip.
  discriminate.
Qed.

Lemma applied_weight_nonneg
    (really_small : R) (r : ThreeVector.t) (par : DensityParameters)
    (dens_type : DensityType.t) (compute_gradient smearing : bool)
    (p : ParticleData) :
  0 < really_small -> skipped really_small dens_type p = false ->
  0 < FourVector.x0 (momentum p) ->
  0 <= applied_weight r par compute_gradient smearing p.
Proof.
  intros Heps Hskip HE. unfold applied_weight.
  destruct smearing; [ | lra].
  unfold kernel_weight. rewrite kernel_weight_value. unfold kernel_value.
  destruct (Rgt_dec _ (r_cut_sqr par)); [lra | ].
  destruct (Rgt_dec _ (r_cut_sqr par)); [lra | ].
  pose proof (not_skipped_mass really_small dens_type p Heps Hskip) as Hm.
  apply Rmult_le_pos; [left; apply exp_pos | ].
  apply Rmult_le_pos; [lra | ].
  left. apply Rdiv_lt_0_compat; lra.
Qed.

(** X12: for a positive epsilon, the Eckart density of a single particle
    of positive energy that is not passed over is its weight times
    mass / energy, the inverse Lorentz factor, times the weight of the
    kernel (1 without smearing) times the normalisation factor. *)
Theorem current_eckart_single_particle
    (really_small : R) (r : ThreeVector.t) (par : DensityParameters)
    (dens_type : DensityType.t) (compute_gradient smearing : bool)
    (p : ParticleData) :
  0 < really_small ->
  skipped really_small dens_type p = false ->
  0 < FourVector.x0 (momentum p) ->
  rho_eck_of
    (current_eckart really_small r [p] par dens_type compute_gradient smearing)
  = density_factor (type p) dens_type
    * (FourVector.abs (momentum p) / FourVector.x0 (momentum p))
    * applied_weight r par compute_gradient smearing p
    * norm_factor_sf par.
Proof.
  intros Heps Hskip HE.
  pose proof (applied_weight_nonneg really_small r par dens_type compute_gradient
                smearing p Heps Hskip HE) as Hw.
  pose proof (not_skipped_mass really_small dens_type p Heps Hskip) as Hm.
  rewrite current_eckart_of_increments. cbv zeta. unfold rho_eck_of.
  cbn [map]. rewrite sum_increments_cons.
  cbn [sum_increments fold_right add_increment to_pos to_neg zero_increment].
  unfold particle_increment. rewrite Hskip.
  unfold positive_weight.
  destruct (Rgt_dec (density_factor (type p) dens_type) 0) as [Hd | Hd];
    cbn [to_pos to_neg];
    rewrite !fourvector_add_zero_r, fourvector_abs_zero, contribution_as_scale,
      fourvector_abs_scale.
  - rewrite Rabs_pos_eq; [field; lra | ].
    apply Rmult_le_pos; [ | exact Hw].
    left. apply Rdiv_lt_0_compat; lra.
  - rewrite Rabs_left1; [field; lra | ].
    assert (H1 : density_factor (type p) dens_type / FourVector.x0 (momentum p) <= 0).
    { unfold Rdiv. pose proof (Rinv_0_lt_compat _ HE). nra. }
    nra.
Qed.

Lemma sum_increments_to_neg_zero (l : list Increment) :
  Forall (fun i => to_neg i = FourVector.zero) l ->
  to_neg (sum_increments l) = FourVector.zero.
Proof.
  induction 1 as [ | i l Hi _ IH]; [reflexivity | ].
  rewrite sum_increments_cons. cbn [add_increment to_neg].
  rewrite Hi, IH. apply fourvector_add_zero_l.
Qed.

Lemma density_nonneg_without_negative_weights
    (really_small : R) (r : ThreeVector.t) (par : DensityParameters)
    (dens_type : DensityType.t) (compute_gradient smearing : bool)
    (plist : list ParticleData) :
  0 < really_small -> 0 <= norm_factor_sf par ->
  Forall (fun p => 0 <= density_factor (type p) dens_type) plist ->
  0 <= rho_eck_of
         (current_eckart really_small r plist par dens_type compute_gradient
            smearing).
Proof.
  intros Heps Hnorm Hall.
  rewrite current_eckart_of_increments. cbv zeta. unfold rho_eck_of.
  rewrite sum_increments_to_neg_zero.
  - rewrite fourvector_abs_zero.
    pose proof (sqrt_pos
      (FourVector.sqr
         (to_pos
            (sum_increments
               (map (particle_increment really_small r par dens_type
                       compute_gradient smearing) plist))))) as Hpos.
    unfold FourVector.abs. nra.
  - apply Forall_map. apply Forall_forall. intros p Hin.
    rewrite Forall_forall in Hall. specialize (Hall p Hin).
    unfold particle_increment.
    destruct (skipped really_small dens_type p) eqn:Hskip; [reflexivity | ].
    pose proof (not_skipped_weight really_small dens_type p Heps Hskip) as Hne.
    unfold positive_weight.
    destruct (Rgt_dec (density_factor (type p) dens_type) 0); [reflexivity | lra].
Qed.

(** X13: with a positive epsilon and a non-negative normalisation factor,
    the Eckart density is never negative when no particle of the list has a
    negative weight; that is always so for the hadron and the pion density,
    whose weights are 1 or 0. *)
Theorem current_eckart_density_nonneg
    (really_small : R) (r : ThreeVector.t) (par : DensityParameters)
    (dens_type : DensityType.t) (compute_gradient smearing : bool)
    (plist : list ParticleData) :
  0 < really_small -> 0 <= norm_factor_sf par ->
  dens_type = DensityType.Hadron \/ dens_type = DensityType.Pion
  \/ Forall (fun p => 0 <= density_factor (type p) dens_type) plist ->
  0 <= rho_eck_of
         (current_eckart really_small r plist par dens_type compute_gradient
            smearing).
Proof.
  intros Heps Hnorm Hcases.
  apply density_nonneg_without_negative_weights; [exact Heps | exact Hnorm | ].
  destruct Hcases as [Hh | [Hp | Hall]]; [ | | exact Hall];
    subst dens_type; apply Forall_forall; intros p _; simpl.
  - destruct (is_hadron (type p)); lra.
  - destruct (pdgcode_is_pion (type p)); lra.
Qed.

(** ** The lattices of update_lattice *)

Lemma array_update_length {A : Type} (f : A -> A) (l : list A) :
  forall k : nat, List.length (array_update f k l) = List.length l.
Proof.
  induction l as [ | x l IH]; intros [ | k]; simpl; try reflexivity.
  rewrite IH. reflexivity.
Qed.

Lemma array_update_nth_error_same {A : Type} (f : A -> A) (l : list A) :
  forall k : nat,
    nth_error (array_update f k l) k = option_map f (nth_error l k).
Proof.
  induction l as [ | x l IH]; intros [ | k]; simpl; try reflexivity.
  apply IH.
Qed.

Lemma array_update_nth_error_other {A : Type} (f : A -> A) (l : list A) :
  forall k j : nat,
    k <> j -> nth_error (array_update f k l) j = nth_error l j.
Proof.
  induction l as [ | x l IH]; intros [ | k] [ | j] H; simpl; try reflexivity.
  - contradiction.
  - apply IH. intro E. apply H. rewrite E. reflexivity.
Qed.

Section LatticeFacts.

Variable LatticeUpdate : Type.
Variable DensityOnLattice : Type.
Variable jmu_net : DensityOnLattice -> FourVector.t.
Variable overwrite_djmu_dxnu :
  DensityOnLattice -> FourVector.t -> FourVector.t -> FourVector.t ->
  FourVector.t -> DensityOnLattice.

Local Abbreviation nodes_of := (lattice_ LatticeUpdate _).

Lemma snapshot_jmu_seq (l : RectangularLattice LatticeUpdate DensityOnLattice)
    (n : nat) :
  forall (k : nat) (d : RectangularLattice LatticeUpdate FourVector.t),
    (k + n <= List.length (nodes_of l))%nat ->
    exists d' : RectangularLattice LatticeUpdate FourVector.t,
      snapshot_jmu LatticeUpdate DensityOnLattice jmu_net l (seq k n) (Some d)
      = Some (Some d')
      /\ n_cells _ _ d' = n_cells _ _ d
      /\ when_update _ _ d' = when_update _ _ d
      /\ (forall j : nat, (k <= j < k + n)%nat ->
            nth_error (nodes_of d') j
            = match nth_error (nodes_of d) j with
              | Some _ => option_map jmu_net (nth_error (nodes_of l) j)
              | None => None
              end)
      /\ (forall j : nat, ~ (k <= j < k + n)%nat ->
            nth_error (nodes_of d') j = nth_error (nodes_of d) j).
Proof.
  induction n as [ | n IH]; intros k d Hlen.
  - exists d. cbn [seq snapshot_jmu]. repeat split; try reflexivity.
    intros j Hj. lia.
  - cbn [seq snapshot_jmu].
    destruct (nth_error (nodes_of l) k) as [node | ] eqn:Hnode.
    2:{ apply nth_error_None in Hnode. lia. }
    destruct (IH (S k) (assign_value LatticeUpdate d k (jmu_net node)))
      as (d' & Hrun & Hcells & Htag & Hin & Hout); [lia | ].
    exists d'. split; [exact Hrun | ].
    split; [rewrite Hcells; reflexivity | ].
    split; [rewrite Htag; reflexivity | ].
    split.
    + intros j Hj. destruct (Nat.eq_dec k j) as [E | E].
      * subst j. rewrite Hout by lia. cbn [assign_value lattice_].
        rewrite array_update_nth_error_same, Hnode.
        destruct (nth_error (nodes_of d) k); reflexivity.
      * rewrite Hin by lia. cbn [assign_value lattice_].
        rewrite array_update_nth_error_other by exact E. reflexivity.
    + intros j Hj. rewrite Hout by lia. cbn [assign_value lattice_].
      apply array_update_nth_error_other. lia.
Qed.

(** A snapshot over all nodes of two lattices of one shape copies the net
    current of every node. *)
Lemma snapshot_jmu_all (l : RectangularLattice LatticeUpdate DensityOnLattice)
    (d : RectangularLattice LatticeUpdate FourVector.t) :
  List.length (nodes_of d) = List.length (nodes_of l) ->
  snapshot_jmu LatticeUpdate DensityOnLattice jmu_net l
    (seq 0 (List.length (nodes_of l))) (Some d)
  = Some (Some {| n_cells := n_cells _ _ d;
                  when_update := when_update _ _ d;
                  lattice_ := map jmu_net (nodes_of l) |}).
Proof.
  intro Hlen.
  destruct (snapshot_jmu_seq l (List.length (nodes_of l)) 0 d (le_n _))
    as (d' & Hrun & Hcells & Htag & Hin & Hout).
  rewrite Hrun. do 2 f_equal.
  destruct d' as [c t ns]. cbn [n_cells when_update lattice_] in *.
  subst c t. f_equal.
  apply nth_error_ext. intro j. rewrite nth_error_map.
  destruct (Nat.lt_ge_cases j (List.length (nodes_of l))) as [Hj | Hj].
  - rewrite Hin by lia.
    destruct (nth_error (nodes_of d) j) eqn:Hd; [reflexivity | ].
    apply nth_error_None in Hd. lia.
  - rewrite Hout by lia.
    assert (H1 : nth_error (nodes_of d) j = None) by (apply nth_error_None; lia).
    assert (H2 : nth_error (nodes_of l) j = None) by (apply nth_error_None; lia).
    rewrite H1, H2. reflexivity.
Qed.

Lemma substitute_derivatives_all
    (g : RectangularLattice LatticeUpdate (list FourVector.t))
    (nodes : list DensityOnLattice) :
  forall k : nat,
    (k + List.length nodes <= List.length (nodes_of g))%nat ->
    substitute_derivatives LatticeUpdate DensityOnLattice overwrite_djmu_dxnu
      g nodes k
    = Some (map (fun pair : DensityOnLattice * list FourVector.t =>
                   overwrite_djmu_dxnu (fst pair)
                     (nth 0 (snd pair) FourVector.zero)
                     (nth 1 (snd pair) FourVector.zero)
                     (nth 2 (snd pair) FourVector.zero)
                     (nth 3 (snd pair) FourVector.zero))
              (combine nodes (skipn k (nodes_of g)))).
Proof.
  induction nodes as [ | node nodes IH]; intros k Hlen;
    cbn [substitute_derivatives].
  - reflexivity.
  - cbn [List.length] in Hlen.
    destruct (nth_error (nodes_of g) k) as [tmp | ] eqn:Htmp.
    2:{ apply nth_error_None in Htmp. lia. }
    rewrite IH by lia.
    assert (Hskip : skipn k (nodes_of g) = tmp :: skipn (S k) (nodes_of g)).
    { rewrite <- (firstn_skipn_middle k (nodes_of g) Htmp) at 1.
      rewrite skipn_app, skipn_all2 by (rewrite length_firstn; lia).
      rewrite length_firstn, Nat.min_l by lia.
      rewrite Nat.sub_diag. reflexivity. }
    rewrite Hskip. reflexivity.
Qed.

End LatticeFacts.

Section LatticeRuns.

Variable LatticeUpdate : Type.
Variable LatticeUpdate_eq_dec : forall x y : LatticeUpdate, {x = y} + {x <> y}.
Variable DensityOnLattice : Type.
Variable jmu_net : DensityOnLattice -> FourVector.t.
Variable overwrite_djmu_dxnu :
  DensityOnLattice -> FourVector.t -> FourVector.t -> FourVector.t ->
  FourVector.t -> DensityOnLattice.
Variable update_lattice_nodes :
  RectangularLattice LatticeUpdate DensityOnLattice -> LatticeUpdate ->
  DensityType.t -> DensityParameters -> list (list ParticleData) -> bool ->
  RectangularLattice LatticeUpdate DensityOnLattice.
Variable compute_four_gradient_lattice :
  RectangularLattice LatticeUpdate FourVector.t ->
  RectangularLattice LatticeUpdate FourVector.t -> R ->
  RectangularLattice LatticeUpdate (list FourVector.t) ->
  RectangularLattice LatticeUpdate (list FourVector.t).

Variable st : Lattices LatticeUpdate DensityOnLattice.
Variable update : LatticeUpdate.
Variable dens_type : DensityType.t.
Variable par : DensityParameters.
Variable ensembles : list (list ParticleData).
Variable time_step : R.
Variable compute_gradient : bool.

Local Abbreviation run :=
  (update_lattice LatticeUpdate LatticeUpdate_eq_dec DensityOnLattice jmu_net
     overwrite_djmu_dxnu update_lattice_nodes compute_four_gradient_lattice
     st update dens_type par ensembles time_step compute_gradient).
Local Abbreviation nodes_of := (lattice_ LatticeUpdate _).

(** X14: when the lattice is there and its tag is the requested one, but
    the derivative mode is not finite differences, [update_lattice] only
    runs the inner update of the primary lattice: the two auxiliary
    four-current lattices and the four-gradient lattice are neither read nor
    written, so that the run succeeds even when they are null. *)
Theorem update_lattice_without_finite_difference
    (l : RectangularLattice LatticeUpdate DensityOnLattice) :
  lat _ _ st = Some l ->
  when_update _ _ l = update ->
  derivatives par <> FiniteDifference ->
  run
  = Some {| lat := Some (update_lattice_nodes l update dens_type par ensembles
                           compute_gradient);
            old_jmu := old_jmu _ _ st;
            new_jmu := new_jmu _ _ st;
            four_grad_lattice := four_grad_lattice _ _ st |}.
Proof.
  intros Hlat Htag Hmode. unfold update_lattice. rewrite Hlat.
  destruct (LatticeUpdate_eq_dec (when_update _ _ l) update); [ | contradiction].
  destruct (n_cells _ _ l) as [[n0 n1] n2].
  destruct (derivatives par); [reflexivity | contradiction].
Qed.

(** X15: in finite-difference mode, with the lattice there, its tag the
    requested one and all lattices of the shape the cell numbers announce,
    the run succeeds; afterwards the "old" lattice holds the net current
    of every node as it was before the inner update, the "new" lattice
    the net current of every node after it, the four-gradient lattice is
    what the stencil makes of these two and the time step, and every node
    of the primary lattice has had its derivatives overwritten with the
    four entries of the four-gradient lattice at its position. *)
Theorem update_lattice_finite_difference
    (l : RectangularLattice LatticeUpdate DensityOnLattice)
    (o n : RectangularLattice LatticeUpdate FourVector.t)
    (g : RectangularLattice LatticeUpdate (list FourVector.t))
    (n0 n1 n2 : Z) :
  let l1 := update_lattice_nodes l update dens_type par ensembles compute_gradient in
  let o1 := {| n_cells := n_cells _ _ o; when_update := when_update _ _ o;
               lattice_ := map jmu_net (nodes_of l) |} in
  let n1' := {| n_cells := n_cells _ _ n; when_update := when_update _ _ n;
                lattice_ := map jmu_net (nodes_of l1) |} in
  let g1 := compute_four_gradient_lattice n1' o1 time_step g in
  lat _ _ st = Some l ->
  old_jmu _ _ st = Some o ->
  new_jmu _ _ st = Some n ->
  four_grad_lattice _ _ st = Some g ->
  when_update _ _ l = update ->
  derivatives par = FiniteDifference ->
  n_cells _ _ l = (n0, n1, n2) ->
  Z.to_nat (n0 * n1 * n2) = List.length (nodes_of l) ->
  List.length (nodes_of o) = List.length (nodes_of l) ->
  List.length (nodes_of n) = List.length (nodes_of l) ->
  List.length (nodes_of l1) = List.length (nodes_of l) ->
  (List.length (nodes_of l1) <= List.length (nodes_of g1))%nat ->
  run
  = Some {| lat :=
              Some {| n_cells := n_cells _ _ l1;
                      when_update := when_update _ _ l1;
                      lattice_ :=
                        map (fun pair : DensityOnLattice * list FourVector.t =>
                               overwrite_djmu_dxnu (fst pair)
                                 (nth 0 (snd pair) FourVector.zero)
                                 (nth 1 (snd pair) FourVector.zero)
                                 (nth 2 (snd pair) FourVector.zero)
                                 (nth 3 (snd pair) FourVector.zero))
                          (combine (nodes_of l1) (nodes_of g1)) |};
            old_jmu := Some o1;
            new_jmu := Some n1';
            four_grad_lattice := Some g1 |}.
Proof.
  intros l1 o1 n1' g1 Hlat Hold Hnew Hgrad Htag Hmode Hcells Hcount Ho Hn Hl1 Hg1.
  unfold update_lattice. rewrite Hlat.
  destruct (LatticeUpdate_eq_dec (when_update _ _ l) update); [ | contradiction].
  rewrite Hcells, Hmode, Hold, Hnew, Hgrad, Hcount.
  rewrite (snapshot_jmu_all LatticeUpdate DensityOnLattice jmu_net l o Ho).
  fold l1. rewrite <- Hl1.
  rewrite (snapshot_jmu_all LatticeUpdate DensityOnLattice jmu_net l1 n
             (eq_trans Hn (eq_sym Hl1))).
  fold o1. fold n1'. fold g1.
  rewrite (substitute_derivatives_all LatticeUpdate DensityOnLattice
             overwrite_djmu_dxnu g1 (nodes_of l1) 0) by (simpl; exact Hg1).
  reflexivity.
Qed.

End LatticeRuns.

(** ** The labels of operator<< *)

Lemma string_append_inv_head (s a b : string) :
  (s ++ a)%string = (s ++ b)%string -> a = b.
Proof.
  induction s as [ | c s IH]; simpl; intro H; [exact H | ].
  injection H as H. apply IH. exact H.
Qed.

(** X16: on a stream in good state the output identifies the density
    type: two values that leave the stream in the same state are equal,
    except that Charge and Strangeness, which both only set the failbit,
    cannot be told apart. *)
Theorem print_DensityType_identifies (os : ostream) (d1 d2 : DensityType.t) :
  failbit os = false ->
  print_DensityType os d1 = print_DensityType os d2 ->
  d1 = d2
  \/ ((d1 = DensityType.Charge \/ d1 = DensityType.Strangeness)
      /\ (d2 = DensityType.Charge \/ d2 = DensityType.Strangeness)).
Proof.
  intros Hgood.
  destruct d1, d2; unfold print_DensityType, put, setstate_failbit;
    rewrite ?Hgood; intro H;
    try (left; reflexivity);
    try (right; split; [left + right | left + right]; reflexivity);
    try discriminate H;
    injection H as H; apply string_append_inv_head in H; discriminate H.
Qed.

(** ** Instances *)

Lemma current_eckart_all_skipped_witness :
  Forall (fun p => skipped Sample.epsilon DensityType.Charge p = true)
    [SampleParticles.neutral]
  /\ current_eckart Sample.epsilon Sample.origin [SampleParticles.neutral]
       (Sample.parameters 1 4) DensityType.Charge true true
     = (0, FourVector.zero, ThreeVector.zero, ThreeVector.zero, ThreeVector.zero).
Proof.
  assert (H : Forall (fun p => skipped Sample.epsilon DensityType.Charge p = true)
                [SampleParticles.neutral]).
  { repeat constructor. unfold skipped, Sample.epsilon. simpl. rewrite Rabs_R0.
    destruct (Rlt_dec 0 (1 / 1000000)); [reflexivity | lra]. }
  split; [exact H | ].
  exact (current_eckart_all_skipped Sample.epsilon Sample.origin
           (Sample.parameters 1 4) DensityType.Charge true true
           [SampleParticles.neutral] H).
Defined.

Lemma current_eckart_none_is_zero_witness :
  0 < Sample.epsilon
  /\ current_eckart Sample.epsilon Sample.origin
       [Sample.positive_charge; Sample.negative_charge]
       (Sample.parameters 1 4) DensityType.None true true
     = (0, FourVector.zero, ThreeVector.zero, ThreeVector.zero, ThreeVector.zero).
Proof.
  assert (H : 0 < Sample.epsilon) by (unfold Sample.epsilon; lra).
  split; [exact H | ].
  exact (current_eckart_none_is_zero Sample.epsilon Sample.origin
           (Sample.parameters 1 4) true true
           [Sample.positive_charge; Sample.negative_charge] H).
Defined.

Lemma current_eckart_permutation_witness :
  Permutation [Sample.positive_charge; Sample.negative_charge]
    [Sample.negative_charge; Sample.positive_charge]
  /\ current_eckart Sample.epsilon Sample.origin
       [Sample.positive_charge; Sample.negative_charge]
       (Sample.parameters 1 4) DensityType.Charge true true
     = current_eckart Sample.epsilon Sample.origin
         [Sample.negative_charge; Sample.positive_charge]
         (Sample.parameters 1 4) DensityType.Charge true true.
Proof.
  assert (H : Permutation [Sample.positive_charge; Sample.negative_charge]
                [Sample.negative_charge; Sample.positive_charge])
    by apply perm_swap.
  split; [exact H | ].
  exact (current_eckart_permutation Sample.epsilon Sample.origin
           (Sample.parameters 1 4) DensityType.Charge true true _ _ H).
Defined.

Lemma current_eckart_time_component_witness :
  0 < Sample.epsilon
  /\ FourVector.x0
       (jmu_of (current_eckart Sample.epsilon Sample.origin
                  [Sample.positive_charge] (Sample.parameters 1 4)
                  DensityType.Charge false false))
     = fold_right Rplus 0
         (map (fun p => density_factor (type p) DensityType.Charge
                        * applied_weight Sample.origin (Sample.parameters 1 4)
                            false false p)
            (filter (fun p => negb (skipped Sample.epsilon DensityType.Charge p))
               [Sample.positive_charge]))
       * norm_factor_sf (Sample.parameters 1 4).
Proof.
  assert (H : 0 < Sample.epsilon) by (unfold Sample.epsilon; lra).
  split; [exact H | ].
  exact (current_eckart_time_component Sample.epsilon Sample.origin
           (Sample.parameters 1 4) DensityType.Charge false false
           [Sample.positive_charge] H).
Defined.

Lemma current_eckart_density_gradient_witness :
  0 < Sample.epsilon
  /\ rho_grad_of (current_eckart Sample.epsilon Sample.origin
                    [Sample.positive_charge] (Sample.parameters 1 4)
                    DensityType.Charge true true)
     = ThreeVector.scale
         (sum_threevectors
            (map (fun p => ThreeVector.lscale
                             (density_factor (type p) DensityType.Charge)
                             (kernel_gradient Sample.origin (Sample.parameters 1 4)
                                true p))
               (filter (fun p => negb (skipped Sample.epsilon DensityType.Charge p))
                  [Sample.positive_charge])))
         (norm_factor_sf (Sample.parameters 1 4)).
Proof.
  assert (H : 0 < Sample.epsilon) by (unfold Sample.epsilon; lra).
  split; [exact H | ].
  exact (current_eckart_density_gradient Sample.epsilon Sample.origin
           (Sample.parameters 1 4) DensityType.Charge true
           [Sample.positive_charge] H).
Defined.

Lemma kernel_weight_bounds_witness :
  0 < sig (Sample.parameters 1 4)
  /\ 0 <= FourVector.x0 Sample.momentum_at_rest * 1
  /\ 0 <= fst (unnormalized_smearing_factor Sample.boundary_offset
                 Sample.momentum_at_rest 1 (Sample.parameters 1 4) true)
       <= FourVector.x0 Sample.momentum_at_rest * 1.
Proof.
  assert (H1 : 0 < sig (Sample.parameters 1 4)) by (simpl; lra).
  assert (H2 : 0 <= FourVector.x0 Sample.momentum_at_rest * 1) by (simpl; lra).
  split; [exact H1 | split; [exact H2 | ]].
  exact (kernel_weight_bounds Sample.boundary_offset Sample.momentum_at_rest 1
           (Sample.parameters 1 4) true H1 H2).
Defined.

Lemma kernel_weight_decreasing_witness :
  fst (unnormalized_smearing_factor Sample.boundary_offset
         Sample.momentum_at_rest 1 (Sample.parameters 1 4) true)
  <= fst (unnormalized_smearing_factor Sample.origin
            Sample.momentum_at_rest 1 (Sample.parameters 1 4) true).
Proof.
  apply (kernel_weight_decreasing Sample.origin Sample.boundary_offset
           Sample.momentum_at_rest 1 (Sample.parameters 1 4) true).
  - simpl. lra.
  - simpl. lra.
  - unfold ThreeVector.sqr, ThreeVector.dot; simpl. lra.
Defined.

Lemma current_eckart_single_particle_witness :
  rho_eck_of
    (current_eckart Sample.epsilon Sample.origin [Sample.positive_charge]
       (Sample.parameters 1 4) DensityType.Charge false false)
  = density_factor (type Sample.positive_charge) DensityType.Charge
    * (FourVector.abs (momentum Sample.positive_charge)
       / FourVector.x0 (momentum Sample.positive_charge))
    * applied_weight Sample.origin (Sample.parameters 1 4) false false
        Sample.positive_charge
    * norm_factor_sf (Sample.parameters 1 4).
Proof.
  apply (current_eckart_single_particle Sample.epsilon Sample.origin
           (Sample.parameters 1 4) DensityType.Charge false false
           Sample.positive_charge).
  - unfold Sample.epsilon. lra.
  - exact sample_not_skipped.
  - simpl. lra.
Defined.

Lemma current_eckart_density_nonneg_witness :
  0 < Sample.epsilon
  /\ 0 <= norm_factor_sf (Sample.parameters 1 4)
  /\ skipped Sample.epsilon DensityType.Hadron SampleHadron.forward = false
  /\ skipped Sample.epsilon DensityType.Hadron SampleHadron.backward = false
  /\ 0 <= rho_eck_of
            (current_eckart Sample.epsilon Sample.origin
               [SampleHadron.forward; SampleHadron.backward]
               (Sample.parameters 1 4) DensityType.Hadron true true).
Proof.
  assert (Heps : 0 < Sample.epsilon) by (unfold Sample.epsilon; lra).
  assert (Hnorm : 0 <= norm_factor_sf (Sample.parameters 1 4)) by (simpl; lra).
  assert (Hmass : FourVector.abs (FourVector.mk 5 0 0 (-3)) = 4).
  { unfold FourVector.abs, FourVector.sqr; simpl.
    replace (5 * 5 - (0 * 0 + 0 * 0 + -3 * -3)) with (4 * 4) by lra.
    apply sqrt_square. lra. }
  split; [exact Heps | split; [exact Hnorm | ]].
  split; [ | split].
  - unfold skipped, Sample.epsilon. simpl. rewrite sample_mass, Rabs_R1.
    destruct (Rlt_dec 1 (1 / 1000000)); [lra | ].
    destruct (Rlt_dec 4 (1 / 1000000)); [lra | reflexivity].
  - unfold skipped, Sample.epsilon. simpl. rewrite Hmass, Rabs_R1.
    destruct (Rlt_dec 1 (1 / 1000000)); [lra | ].
    destruct (Rlt_dec 4 (1 / 1000000)); [lra | reflexivity].
  - apply (current_eckart_density_nonneg Sample.epsilon Sample.origin
             (Sample.parameters 1 4) DensityType.Hadron true true
             [SampleHadron.forward; SampleHadron.backward] Heps Hnorm).
    left. reflexivity.
Defined.

Lemma update_lattice_without_finite_difference_witness :
  update_lattice bool Bool.bool_dec FourVector.t SampleLattice.jmu_net
    SampleLattice.overwrite_djmu_dxnu SampleLattice.update_lattice_nodes
    SampleLattice.compute_four_gradient_lattice SampleLattice.state true
    DensityType.Baryon (Sample.parameters 1 4) [] 1 true
  = Some {| lat := Some (SampleLattice.update_lattice_nodes
                           (SampleLattice.one_node SampleLattice.unit_current)
                           true DensityType.Baryon (Sample.parameters 1 4) [] true);
            old_jmu := old_jmu _ _ SampleLattice.state;
            new_jmu := new_jmu _ _ SampleLattice.state;
            four_grad_lattice := four_grad_lattice _ _ SampleLattice.state |}.
Proof.
  apply (update_lattice_without_finite_difference bool Bool.bool_dec FourVector.t
           SampleLattice.jmu_net SampleLattice.overwrite_djmu_dxnu
           SampleLattice.update_lattice_nodes
           SampleLattice.compute_four_gradient_lattice SampleLattice.state true
           DensityType.Baryon (Sample.parameters 1 4) [] 1 true
           (SampleLattice.one_node SampleLattice.unit_current)).
  - reflexivity.
  - reflexivity.
  - simpl. discriminate.
Defined.

Lemma update_lattice_finite_difference_witness :
  exists st' : Lattices bool FourVector.t,
    update_lattice bool Bool.bool_dec FourVector.t SampleLattice.jmu_net
      SampleLattice.overwrite_djmu_dxnu SampleLattice.update_lattice_nodes
      SampleLattice.compute_four_gradient_lattice SampleLattice.state true
      DensityType.Baryon SampleLattice.finite_difference_parameters [] 1 true
    = Some st'
    /\ option_map (lattice_ _ _) (old_jmu _ _ st') = Some [SampleLattice.unit_current]
    /\ option_map (lattice_ _ _) (new_jmu _ _ st')
       = Some [FourVector.scale SampleLattice.unit_current 2].
Proof.
  eexists. split.
  - apply (update_lattice_finite_difference bool Bool.bool_dec FourVector.t
             SampleLattice.jmu_net SampleLattice.overwrite_djmu_dxnu
             SampleLattice.update_lattice_nodes
             SampleLattice.compute_four_gradient_lattice SampleLattice.state true
             DensityType.Baryon SampleLattice.finite_difference_parameters [] 1 true
             (SampleLattice.one_node SampleLattice.unit_current)
             (SampleLattice.one_node FourVector.zero)
             (SampleLattice.one_node FourVector.zero)
             (SampleLattice.one_node [FourVector.zero; FourVector.zero;
                                      FourVector.zero; FourVector.zero])
             1%Z 1%Z 1%Z);
      reflexivity.
  - split; reflexivity.
Defined.

Lemma print_DensityType_identifies_witness :
  failbit Sample.empty_stream = false
  /\ (print_DensityType Sample.empty_stream DensityType.Pion
      = print_DensityType Sample.empty_stream DensityType.Pion ->
      DensityType.Pion = DensityType.Pion
      \/ ((DensityType.Pion = DensityType.Charge
           \/ DensityType.Pion = DensityType.Strangeness)
          /\ (DensityType.Pion = DensityType.Charge
              \/ DensityType.Pion = DensityType.Strangeness))).
Proof.
  split; [reflexivity | ].
  apply (print_DensityType_identifies Sample.empty_stream DensityType.Pion
           DensityType.Pion).
  reflexivity.
Defined.

(** ** Curl and time derivative *)

Lemma sum_increments_skip_or_add
    (really_small : R) (r : ThreeVector.t) (par : DensityParameters)
    (dens_type : DensityType.t) (compute_gradient smearing : bool)
    (p : ParticleData) (plist : list ParticleData) :
  sum_increments
    (map (particle_increment really_small r par dens_type compute_gradient smearing)
       (p :: plist))
  = add_increment
      (particle_increment really_small r par dens_type compute_gradient smearing p)
      (sum_increments
         (map (particle_increment really_small r par dens_type compute_gradient
                 smearing) plist)).
Proof. reflexivity. Qed.

(** X17: when gradients are requested, the curl of the current returned is
    the normalisation factor times the sum, over the particles that are not
    passed over, of the vector product of the gradient of the kernel with
    the spatial part of tmp; the time derivative returned is the
    normalisation factor times the sum of - (grad . j) / dens_factor * j,
    with j the spatial part of tmp. *)
Theorem current_eckart_curl_and_time_derivative
    (really_small : R) (r : ThreeVector.t) (par : DensityParameters)
    (dens_type : DensityType.t) (smearing : bool) (plist : list ParticleData) :
  let kept := filter (fun p => negb (skipped really_small dens_type p)) plist in
  let j := fun p => FourVector.threevec (tmp_of dens_type p) in
  let grad := fun p => kernel_gradient r par true p in
  j_rot_of (current_eckart really_small r plist par dens_type true smearing)
  = ThreeVector.scale
      (sum_threevectors (map (fun p => cross_product (grad p) (j p)) kept))
      (norm_factor_sf par)
  /\ dj_dt_of (current_eckart really_small r plist par dens_type true smearing)
     = ThreeVector.scale
         (sum_threevectors
            (map (fun p =>
                    ThreeVector.lscale
                      (- ThreeVector.dot (grad p) (j p)
                       / density_factor (type p) dens_type)
                      (j p))
               kept))
         (norm_factor_sf par).
Proof.
  intros kept j grad. subst kept j grad.
  rewrite current_eckart_of_increments. cbv zeta.
  unfold j_rot_of, dj_dt_of.
  split; f_equal.
  - induction plist as [ | p plist IH]; [threevector_ring | ].
    rewrite sum_increments_skip_or_add. cbn [filter add_increment to_x to_y to_z].
    unfold particle_increment at 1 3 5 7 9 11.
    destruct (skipped really_small dens_type p) eqn:Hskip;
      cbn [negb map to_x to_y to_z zero_increment].
    + rewrite <- IH. threevector_ring.
    + rewrite sum_threevectors_cons, <- IH.
      unfold spatial_term, cross_product. threevector_ring.
  - induction plist as [ | p plist IH]; [threevector_ring | ].
    rewrite sum_increments_skip_or_add. cbn [filter add_increment from_time].
    unfold particle_increment at 1.
    destruct (skipped really_small dens_type p) eqn:Hskip;
      cbn [negb map from_time zero_increment].
    + rewrite <- IH. threevector_ring.
    + rewrite sum_threevectors_cons, <- IH.
      unfold time_term, spatial_term, ThreeVector.dot.
      apply threevector_eq; simpl; unfold Rdiv; ring.
Qed.

(** ** What the flags and the frame do not change *)

Lemma particle_increment_gradient_part
    (really_small : R) (r : ThreeVector.t) (par : DensityParameters)
    (dens_type : DensityType.t) (compute_gradient : bool) (p : ParticleData) :
  let i := particle_increment really_small r par dens_type compute_gradient true p in
  let i' := particle_increment really_small r par dens_type compute_gradient false p in
  from_time i = from_time i' /\ to_x i = to_x i' /\ to_y i = to_y i'
  /\ to_z i = to_z i'.
Proof.
  unfold particle_increment.
  destruct (skipped really_small dens_type p); repeat split.
Qed.

Lemma sum_increments_gradient_part (l l' : list Increment) :
  Forall2 (fun i i' => from_time i = from_time i' /\ to_x i = to_x i'
                       /\ to_y i = to_y i' /\ to_z i = to_z i') l l' ->
  from_time (sum_increments l) = from_time (sum_increments l')
  /\ to_x (sum_increments l) = to_x (sum_increments l')
  /\ to_y (sum_increments l) = to_y (sum_increments l')
  /\ to_z (sum_increments l) = to_z (sum_increments l').
Proof.
  induction 1 as [ | i i' l l' (Ht & Hx & Hy & Hz) _ (IHt & IHx & IHy & IHz)].
  - repeat split.
  - rewrite !sum_increments_cons. cbn [add_increment from_time to_x to_y to_z].
    rewrite Ht, Hx, Hy, Hz, IHt, IHx, IHy, IHz. repeat split.
Qed.

(** X18: the smearing flag acts on the two sums only: the gradient of the
    density, the time derivative and the curl of the current returned are
    the same with and without smearing. *)
Theorem current_eckart_derivatives_ignore_smearing
    (really_small : R) (r : ThreeVector.t) (par : DensityParameters)
    (dens_type : DensityType.t) (compute_gradient : bool)
    (plist : list ParticleData) :
  let res := fun smearing =>
    current_eckart really_small r plist par dens_type compute_gradient smearing in
  rho_grad_of (res true) = rho_grad_of (res false)
  /\ dj_dt_of (res true) = dj_dt_of (res false)
  /\ j_rot_of (res true) = j_rot_of (res false).
Proof.
  intro res. subst res. cbv beta.
  rewrite !current_eckart_of_increments. cbv zeta.
  unfold rho_grad_of, dj_dt_of, j_rot_of.
  destruct (sum_increments_gradient_part
              (map (particle_increment really_small r par dens_type compute_gradient
                      true) plist)
              (map (particle_increment really_small r par dens_type compute_gradient
                      false) plist))
    as (Ht & Hx & Hy & Hz).
  { induction plist as [ | p plist IH]; cbn [map]; constructor; [ | exact IH].
    apply particle_increment_gradient_part. }
  rewrite Ht, Hx, Hy, Hz. repeat split.
Qed.

Lemma eckart_body_translate
    (really_small : R) (r a : ThreeVector.t) (t : R) (par : DensityParameters)
    (dens_type : DensityType.t) (compute_gradient smearing : bool)
    (acc : Accumulator) (p : ParticleData) :
  eckart_body really_small (ThreeVector.add r a) par dens_type compute_gradient
    smearing acc (translate a t p)
  = eckart_body really_small r par dens_type compute_gradient smearing acc p.
Proof.
  unfold eckart_body. cbn [translate type momentum position].
  replace (ThreeVector.sub
             (FourVector.threevec
                (FourVector.mk t
                   (FourVector.x1 (position p) + ThreeVector.x1 a)
                   (FourVector.x2 (position p) + ThreeVector.x2 a)
                   (FourVector.x3 (position p) + ThreeVector.x3 a)))
             (ThreeVector.add r a))
    with (ThreeVector.sub (FourVector.threevec (position p)) r)
    by threevector_ring.
  reflexivity.
Qed.

(** X19: [current_eckart] sees positions only relative to the field point,
    and never the time component of a position: moving every particle and
    the field point by the same vector, and setting the times of the
    particles to anything, leaves the whole result as it is. *)
Theorem current_eckart_translation
    (really_small : R) (r a : ThreeVector.t) (t : R) (par : DensityParameters)
    (dens_type : DensityType.t) (compute_gradient smearing : bool)
    (plist : list ParticleData) :
  current_eckart really_small (ThreeVector.add r a) (map (translate a t) plist)
    par dens_type compute_gradient smearing
  = current_eckart really_small r plist par dens_type compute_gradient smearing.
Proof.
  unfold current_eckart, current_eckart_impl, eckart_loop. f_equal.
  generalize initial_accumulator as acc.
  induction plist as [ | p plist IH]; intro acc; cbn [map fold_left].
  - reflexivity.
  - rewrite eckart_body_translate. apply IH.
Qed.

(** ** Opposite weights *)

Lemma flip_add_increment (i j : Increment) :
  flip_increment (add_increment i j)
  = add_increment (flip_increment i) (flip_increment j).
Proof.
  apply increment_eq; simpl; fourvector_ring.
Qed.

Lemma flip_zero_increment : flip_increment zero_increment = zero_increment.
Proof.
  apply increment_eq; simpl; fourvector_ring.
Qed.

Lemma particle_increment_opposite
    (really_small : R) (r : ThreeVector.t) (par : DensityParameters)
    (dens_type : DensityType.t) (compute_gradient smearing : bool)
    (p q : ParticleData) :
  0 < really_small ->
  opposite_weight dens_type p q ->
  particle_increment really_small r par dens_type compute_gradient smearing q
  = flip_increment
      (particle_increment really_small r par dens_type compute_gradient smearing p).
Proof.
  intros Heps (Hw & Hmom & Hpos).
  assert (Hskip : skipped really_small dens_type q = skipped really_small dens_type p).
  { unfold skipped. rewrite Hw, Hmom, Rabs_Ropp. reflexivity. }
  unfold particle_increment. rewrite Hskip.
  destruct (skipped really_small dens_type p) eqn:Hp.
  { symmetry. apply flip_zero_increment. }
  pose proof (not_skipped_weight really_small dens_type p Heps Hp) as Hne.
  assert (Hcontrib :
    contribution r par dens_type compute_gradient smearing q
    = FourVector.scale (contribution r par dens_type compute_gradient smearing p)
        (-1)).
  { unfold contribution, kernel_weight. rewrite Hw, Hmom, Hpos.
    destruct smearing; fourvector_field. }
  assert (Hspatial : forall k,
    spatial_term r par dens_type compute_gradient k q
    = FourVector.scale (spatial_term r par dens_type compute_gradient k p) (-1)).
  { intro k. unfold spatial_term, tmp_of, kernel_gradient.
    rewrite Hw, Hmom, Hpos. fourvector_field. }
  assert (Htime : forall k,
    time_term r par dens_type compute_gradient k q
    = FourVector.scale (time_term r par dens_type compute_gradient k p) (-1)).
  { intro k. unfold time_term, spatial_term, tmp_of, kernel_gradient.
    rewrite Hw, Hmom, Hpos.
    pose proof (not_skipped_energy really_small dens_type p Heps Hp) as HE.
    destruct k as [ | [ | [ | [ | k]]]];
      apply fourvector_eq; simpl; field; repeat split; assumption. }
  unfold positive_weight. rewrite Hw.
  destruct (Rgt_dec (- density_factor (type p) dens_type) 0),
    (Rgt_dec (density_factor (type p) dens_type) 0); try lra;
    apply increment_eq; cbn [flip_increment to_pos to_neg from_time to_x to_y to_z];
    rewrite ?Hcontrib, ?Hspatial, ?Htime;
    destruct compute_gradient; try reflexivity; fourvector_ring.
Qed.

Lemma sum_increments_opposite
    (really_small : R) (r : ThreeVector.t) (par : DensityParameters)
    (dens_type : DensityType.t) (compute_gradient smearing : bool)
    (l l' : list ParticleData) :
  0 < really_small ->
  Forall2 (opposite_weight dens_type) l l' ->
  sum_increments
    (map (particle_increment really_small r par dens_type compute_gradient smearing)
       l')
  = flip_increment
      (sum_increments
         (map (particle_increment really_small r par dens_type compute_gradient
                 smearing) l)).
Proof.
  intros Heps Hall.
  induction Hall as [ | p q l l' Hpq _ IH]; cbn [map].
  - symmetry. apply flip_zero_increment.
  - rewrite !sum_increments_cons, flip_add_increment, IH.
    rewrite (particle_increment_opposite really_small r par dens_type
               compute_gradient smearing p q Heps Hpq).
    reflexivity.
Qed.

(** X20: for a positive epsilon, replacing every particle by one of the
    opposite weight with the same momentum at the same place, as for the
    antiparticles under the charge, baryon or strangeness density, changes
    the sign of all five outputs of [current_eckart]. *)
Theorem current_eckart_opposite_weights
    (really_small : R) (r : ThreeVector.t) (par : DensityParameters)
    (dens_type : DensityType.t) (compute_gradient smearing : bool)
    (l l' : list ParticleData) :
  0 < really_small ->
  Forall2 (opposite_weight dens_type) l l' ->
  let res := current_eckart really_small r l par dens_type compute_gradient smearing in
  let res' := current_eckart really_small r l' par dens_type compute_gradient smearing in
  rho_eck_of res' = - rho_eck_of res
  /\ jmu_of res' = FourVector.scale (jmu_of res) (-1)
  /\ rho_grad_of res' = ThreeVector.lscale (-1) (rho_grad_of res)
  /\ dj_dt_of res' = ThreeVector.lscale (-1) (dj_dt_of res)
  /\ j_rot_of res' = ThreeVector.lscale (-1) (j_rot_of res).
Proof.
  intros Heps Hall res res'. subst res res'.
  rewrite !current_eckart_of_increments. cbv zeta.
  rewrite (sum_increments_opposite really_small r par dens_type compute_gradient
             smearing l l' Heps Hall).
  unfold rho_eck_of, jmu_of, rho_grad_of, dj_dt_of, j_rot_of.
  cbn [flip_increment to_pos to_neg from_time to_x to_y to_z].
  assert (Habs : Rabs (-1) = 1) by (rewrite Rabs_left1; lra).
  rewrite !fourvector_abs_scale, Habs.
  split; [ring | ].
  split; [fourvector_ring | ].
  destruct compute_gradient; repeat split; threevector_ring.
Qed.

(** ** What the density and the current do not depend on *)

Lemma sum_increments_sums_part (l l' : list Increment) :
  Forall2 (fun i i' => to_pos i = to_pos i' /\ to_neg i = to_neg i') l l' ->
  to_pos (sum_increments l) = to_pos (sum_increments l')
  /\ to_neg (sum_increments l) = to_neg (sum_increments l').
Proof.
  induction 1 as [ | i i' l l' (Hp & Hn) _ (IHp & IHn)].
  - split; reflexivity.
  - rewrite !sum_increments_cons. cbn [add_increment to_pos to_neg].
    rewrite Hp, Hn, IHp, IHn. split; reflexivity.
Qed.

Lemma kernel_weight_ignores_gradient_flag
    (r : ThreeVector.t) (par : DensityParameters) (p : ParticleData) :
  kernel_weight r par true p = kernel_weight r par false p.
Proof.
  unfold kernel_weight. rewrite !kernel_weight_value. reflexivity.
Qed.

(** X21: asking for the gradients does not change the density and the
    current: the Eckart density and the four-current returned are the same
    with and without the gradient flag. *)
Theorem current_eckart_density_ignores_gradient_flag
    (really_small : R) (r : ThreeVector.t) (par : DensityParameters)
    (dens_type : DensityType.t) (smearing : bool) (plist : list ParticleData) :
  let res := fun compute_gradient =>
    current_eckart really_small r plist par dens_type compute_gradient smearing in
  rho_eck_of (res true) = rho_eck_of (res false)
  /\ jmu_of (res true) = jmu_of (res false).
Proof.
  intro res. subst res. cbv beta.
  rewrite !current_eckart_of_increments. cbv zeta. unfold rho_eck_of, jmu_of.
  destruct (sum_increments_sums_part
              (map (particle_increment really_small r par dens_type true smearing)
                 plist)
              (map (particle_increment really_small r par dens_type false smearing)
                 plist))
    as (Hp & Hn).
  { induction plist as [ | p plist IH]; cbn [map]; constructor; [ | exact IH].
    unfold particle_increment, contribution.
    rewrite kernel_weight_ignores_gradient_flag.
    destruct (skipped really_small dens_type p); split; reflexivity. }
  rewrite Hp, Hn. split; reflexivity.
Qed.

(** X22: without smearing the Eckart density and the four-current do not
    depend on the field point, the cutoff radius or the width, also when
    gradients are requested: two calls whose parameters agree on the
    normalisation factor return the same density and the same current. *)
Theorem current_eckart_unsmeared_density
    (really_small : R) (r1 r2 : ThreeVector.t) (par1 par2 : DensityParameters)
    (dens_type : DensityType.t) (g1 g2 : bool) (plist : list ParticleData) :
  norm_factor_sf par1 = norm_factor_sf par2 ->
  let res1 := current_eckart really_small r1 plist par1 dens_type g1 false in
  let res2 := current_eckart really_small r2 plist par2 dens_type g2 false in
  rho_eck_of res1 = rho_eck_of res2 /\ jmu_of res1 = jmu_of res2.
Proof.
  intros Hnorm res1 res2. subst res1 res2.
  rewrite !current_eckart_of_increments. cbv zeta. unfold rho_eck_of, jmu_of.
  destruct (sum_increments_sums_part
              (map (particle_increment really_small r1 par1 dens_type g1 false) plist)
              (map (particle_increment really_small r2 par2 dens_type g2 false) plist))
    as (Hp & Hn).
  { induction plist as [ | p plist IH]; cbn [map]; constructor; [ | exact IH].
    unfold particle_increment, contribution.
    destruct (skipped really_small dens_type p); split; reflexivity. }
  rewrite Hp, Hn, Hnorm. split; reflexivity.
Qed.

Lemma current_eckart_unsmeared_density_witness :
  norm_factor_sf (Sample.parameters 1 4) = norm_factor_sf (Sample.parameters 2 8)
  /\ rho_eck_of
       (current_eckart Sample.epsilon Sample.origin
          [Sample.positive_charge; Sample.negative_charge]
          (Sample.parameters 1 4) DensityType.Charge true false)
     = rho_eck_of
         (current_eckart Sample.epsilon Sample.boundary_offset
            [Sample.positive_charge; Sample.negative_charge]
            (Sample.parameters 2 8) DensityType.Charge false false).
Proof.
  split; [reflexivity | ].
  apply (current_eckart_unsmeared_density Sample.epsilon Sample.origin
           Sample.boundary_offset (Sample.parameters 1 4) (Sample.parameters 2 8)
           DensityType.Charge true false
           [Sample.positive_charge; Sample.negative_charge]).
  reflexivity.
Defined.

Lemma current_eckart_opposite_weights_witness :
  0 < Sample.epsilon
  /\ Forall2 (opposite_weight DensityType.Charge) [Sample.positive_charge]
       [SampleAntiparticle.anti_positive_charge]
  /\ rho_eck_of
       (current_eckart Sample.epsilon Sample.origin
          [SampleAntiparticle.anti_positive_charge] (Sample.parameters 1 4)
          DensityType.Charge true true)
     = - rho_eck_of
           (current_eckart Sample.epsilon Sample.origin [Sample.positive_charge]
              (Sample.parameters 1 4) DensityType.Charge true true).
Proof.
  assert (Heps : 0 < Sample.epsilon) by (unfold Sample.epsilon; lra).
  assert (Hall : Forall2 (opposite_weight DensityType.Charge)
                   [Sample.positive_charge]
                   [SampleAntiparticle.anti_positive_charge]).
  { repeat constructor. }
  split; [exact Heps | split; [exact Hall | ]].
  apply (current_eckart_opposite_weights Sample.epsilon Sample.origin
           (Sample.parameters 1 4) DensityType.Charge true true
           [Sample.positive_charge] [SampleAntiparticle.anti_positive_charge]
           Heps Hall).
Defined.
